(** * A shallow embedding of the event parser and the conversation handling
    of the WhatsApp calendar bot ([app/services/nlp_service.py],
    [main.py], [app/models/user.py]).

    Text is modelled as a list of Unicode code points ([N]).  String
    literals of the source are written as Rocq strings holding their UTF-8
    bytes and decoded with [u].  The [re] module of Python is modelled by a
    small backtracking matcher with the same leftmost, ordered-alternation,
    greedy/lazy semantics, so that every regular expression of the source
    appears below as a syntax tree that can be read against its pattern. *)

From Stdlib Require Import String Ascii.
From Stdlib Require Import ZArith NArith List Bool Lia.
Import ListNotations.

Open Scope N_scope.

(* ------------------------------------------------------------------ *)
(** ** Text *)

Definition str := list N.

(** UTF-8 decoding of a byte list (well-formed input assumed; stray
    continuation bytes are kept as they are). *)
Fixpoint utf8 (bs : list N) : str :=
  match bs with
  | [] => []
  | b0 :: r0 =>
      if b0 <? 128 then b0 :: utf8 r0
      else if b0 <? 224 then
        match r0 with
        | b1 :: r1 =>
            (N.land b0 31 * 64 + N.land b1 63) :: utf8 r1
        | [] => [b0]
        end
      else if b0 <? 240 then
        match r0 with
        | b1 :: b2 :: r2 =>
            (N.land b0 15 * 4096 + N.land b1 63 * 64 + N.land b2 63)
              :: utf8 r2
        | _ => [b0]
        end
      else
        match r0 with
        | b1 :: b2 :: b3 :: r3 =>
            (N.land b0 7 * 262144 + N.land b1 63 * 4096
             + N.land b2 63 * 64 + N.land b3 63) :: utf8 r3
        | _ => [b0]
        end
  end.

Definition u (s : string) : str :=
  utf8 (map N_of_ascii (list_ascii_of_string s)).

(** [str.isspace] of Python: the ASCII and Unicode white-space code points. *)
Definition is_space (c : N) : bool :=
  ((9 <=? c) && (c <=? 13)) || ((28 <=? c) && (c <=? 32)) || (c =? 133)
  || (c =? 160) || (c =? 5760) || ((8192 <=? c) && (c <=? 8202))
  || (c =? 8232) || (c =? 8233) || (c =? 8239) || (c =? 8287)
  || (c =? 12288).

(** [\d] and [int()] over ASCII digits. *)
Definition is_digit (c : N) : bool := (48 <=? c) && (c <=? 57).

(** [str.lower] / [str.upper] on characters; the model maps the ASCII
    letters (the other characters used by the bot, Hebrew letters, digits
    and punctuation, have no case). *)
Definition lower_char (c : N) : N :=
  if (65 <=? c) && (c <=? 90) then c + 32 else c.
Definition upper_char (c : N) : N :=
  if (97 <=? c) && (c <=? 122) then c - 32 else c.

Definition py_lower (s : str) : str := map lower_char s.

Fixpoint drop_space (s : str) : str :=
  match s with
  | c :: r => if is_space c then drop_space r else s
  | [] => []
  end.

(** [str.strip()] *)
Definition py_strip (s : str) : str := rev (drop_space (rev (drop_space s))).

(** [str.split()] with no separator: runs of white space separate words,
    empty words are dropped. *)
Fixpoint split_aux (s : str) (cur : str) : list str :=
  match s with
  | [] => match cur with [] => [] | _ => [rev cur] end
  | c :: r =>
      if is_space c then
        match cur with
        | [] => split_aux r []
        | _ => rev cur :: split_aux r []
        end
      else split_aux r (c :: cur)
  end.
Definition py_split (s : str) : list str := split_aux s [].

(** [' '.join(words)] *)
Fixpoint join_space (ws : list str) : str :=
  match ws with
  | [] => []
  | [w] => w
  | w :: r => w ++ [32] ++ join_space r
  end.

Fixpoint str_eqb (a b : str) : bool :=
  match a, b with
  | [], [] => true
  | x :: a', y :: b' => (x =? y) && str_eqb a' b'
  | _, _ => false
  end.

Fixpoint prefixb (p s : str) : bool :=
  match p, s with
  | [], _ => true
  | x :: p', y :: s' => (x =? y) && prefixb p' s'
  | _, [] => false
  end.

(** [p in s] for strings. *)
Fixpoint containsb (p s : str) : bool :=
  prefixb p s || match s with [] => false | _ :: s' => containsb p s' end.

(** [s.replace(old, new)] for a non-empty [old]: left to right,
    non-overlapping.  [n] bounds the scan (the length of [s] suffices). *)
Fixpoint replace_aux (n : nat) (old new s : str) : str :=
  match n with
  | O => s
  | S n' =>
      match s with
      | [] => []
      | c :: r =>
          if prefixb old s then new ++ replace_aux n' old new (skipn (length old) s)
          else c :: replace_aux n' old new r
      end
  end.
Definition py_replace (s old new : str) : str :=
  replace_aux (length s) old new s.

(** [x in [...]] for a list of string literals. *)
Definition in_strs (x : str) (l : list str) : bool := existsb (str_eqb x) l.

(* ------------------------------------------------------------------ *)
(** ** Regular expressions (Python [re], str patterns) *)

(** Items of a character class [[...]]. *)
Inductive citem :=
| CRange (lo hi : N)     (* a-z, or a single character when lo = hi *)
| CDigit                 (* \d *)
| CSpace.                (* \s *)

Inductive re :=
| Eps
| Chr (c : N)
| Cls (negated : bool) (items : list citem)
| Dot                              (* . : any character but newline *)
| Seq (a b : re)
| Alt (a b : re)                   (* a|b, tried left first *)
| Grp (n : nat) (a : re)           (* capturing group number n *)
| Star (greedy : bool) (a : re)    (* a* (greedy) or a*? (lazy) *)
| Bol                              (* ^ *)
| Eol                              (* $ *)
| NotAhead (a : re).               (* (?!a) *)

Definition citem_mem (c : N) (it : citem) : bool :=
  match it with
  | CRange lo hi => (lo <=? c) && (c <=? hi)
  | CDigit => is_digit c
  | CSpace => is_space c
  end.

(** Under [re.IGNORECASE] a character and a class match up to case. *)
Definition cls_mem (ic : bool) (its : list citem) (c : N) : bool :=
  existsb (citem_mem c) its
  || (ic && (existsb (citem_mem (lower_char c)) its
             || existsb (citem_mem (upper_char c)) its)).

Definition chr_eq (ic : bool) (c d : N) : bool :=
  if ic then lower_char c =? lower_char d else c =? d.

Definition caps := list (nat * (nat * nat)).
Definition kont := nat -> caps -> option (nat * caps).

(** Backtracking matcher in continuation-passing style: [go r i cp k]
    matches [r] at position [i] of [s] and passes the end position and the
    captures to [k]; the first success in Python's order is returned.  A
    repetition stops when an iteration consumes nothing; [fuel] bounds the
    iterations of one repetition ([length s + 1] is never reached). *)
Fixpoint mt (ic : bool) (s : str) (fuel : nat)
  : re -> nat -> caps -> kont -> option (nat * caps) :=
  fix go (r : re) (i : nat) (cp : caps) (k : kont) {struct r} :=
    match r with
    | Eps => k i cp
    | Chr c =>
        match nth_error s i with
        | Some d => if chr_eq ic c d then k (S i) cp else None
        | None => None
        end
    | Cls neg its =>
        match nth_error s i with
        | Some d => if xorb neg (cls_mem ic its d) then k (S i) cp else None
        | None => None
        end
    | Dot =>
        match nth_error s i with
        | Some d => if d =? 10 then None else k (S i) cp
        | None => None
        end
    | Seq a b => go a i cp (fun j cp' => go b j cp' k)
    | Alt a b =>
        match go a i cp k with
        | Some x => Some x
        | None => go b i cp k
        end
    | Grp n a => go a i cp (fun j cp' => k j ((n, (i, j)) :: cp'))
    | Star g a =>
        match fuel with
        | O => k i cp
        | S f =>
            let more :=
              go a i cp (fun j cp' =>
                if Nat.leb j i then None else mt ic s f (Star g a) j cp' k) in
            if g then match more with Some x => Some x | None => k i cp end
            else match k i cp with Some x => Some x | None => more end
        end
    | Bol => if Nat.eqb i 0 then k i cp else None
    | Eol =>
        if Nat.eqb i (length s)
           || (Nat.eqb (S i) (length s) && match nth_error s i with
                                            | Some d => d =? 10
                                            | None => false end)
        then k i cp else None
    | NotAhead a =>
        match go a i cp (fun j cp' => Some (j, cp')) with
        | Some _ => None
        | None => k i cp
        end
    end.

(** A match object: start, end, captures. *)
Record mobj := MObj { m_start : nat; m_end : nat; m_caps : caps }.

Definition match_at (ic : bool) (r : re) (s : str) (i : nat) : option mobj :=
  match mt ic s (S (length s)) r i [] (fun j cp => Some (j, cp)) with
  | Some (j, cp) => Some (MObj i j cp)
  | None => None
  end.

Fixpoint search_from (ic : bool) (r : re) (s : str) (i : nat) (n : nat)
  : option mobj :=
  match match_at ic r s i with
  | Some m => Some m
  | None => match n with O => None | S n' => search_from ic r s (S i) n' end
  end.

(** [re.search] and [re.match] *)
Definition re_search (ic : bool) (r : re) (s : str) : option mobj :=
  search_from ic r s 0 (length s).
Definition re_match (ic : bool) (r : re) (s : str) : option mobj :=
  match_at ic r s 0.

(** [m.group(n)]: [None] when the group did not take part in the match. *)
Definition group (s : str) (m : mobj) (n : nat) : option str :=
  match find (fun p => Nat.eqb (fst p) n) (m_caps m) with
  | Some (_, (a, b)) => Some (firstn (b - a) (skipn a s))
  | None => None
  end%nat.

(** [re.findall] for a pattern with one group: the group of each
    non-overlapping match, left to right ([''] for a group that did not
    take part). *)
Fixpoint findall_from (ic : bool) (r : re) (s : str) (i : nat) (n : nat)
  : list str :=
  match n with
  | O => []
  | S n' =>
      match search_from ic r s i (length s - i) with
      | Some m =>
          match group s m 1 with Some g => g | None => [] end
          :: findall_from ic r s
               (if Nat.eqb (m_end m) (m_start m) then S (m_end m) else m_end m) n'
      | None => []
      end
  end%nat.
Definition re_findall (ic : bool) (r : re) (s : str) : list str :=
  findall_from ic r s 0 (S (length s)).

(** Pattern-building shorthands. *)
Definition lit (w : str) : re := fold_right (fun c r => Seq (Chr c) r) Eps w.
Definition L (s : string) : re := lit (u s).
Fixpoint alts (l : list re) : re :=
  match l with
  | [] => Cls false []        (* never matches *)
  | [a] => a
  | a :: r => Alt a (alts r)
  end.
Definition Lits (l : list string) : re := alts (map L l).
Fixpoint seqs (l : list re) : re :=
  match l with
  | [] => Eps
  | [a] => a
  | a :: r => Seq a (seqs r)
  end.
Definition plus (a : re) : re := Seq a (Star true a).            (* a+ *)
Definition plus_lazy (a : re) : re := Seq a (Star false a).      (* a+? *)
Definition star (a : re) : re := Star true a.                    (* a* *)
Definition star_lazy (a : re) : re := Star false a.              (* a*? *)
Definition opt (a : re) : re := Alt a Eps.                       (* a? *)
Definition rep12 (a : re) : re := Seq a (opt a).                 (* a{1,2} *)
Definition D : re := Cls false [CDigit].                         (* \d *)
Definition S_ : re := Cls false [CSpace].                        (* \s *)
Definition ch (c : ascii) : N := N_of_ascii c.

Example search_ex :
  option_map (fun m => (m_start m, m_end m))
    (re_search false (Seq (Grp 1 (rep12 D)) (L "pm")) (u "at 12pm"))
  = Some (3%nat, 7%nat).
Proof. reflexivity. Qed.

(* ------------------------------------------------------------------ *)
(** ** Python values used by the parser *)

Open Scope Z_scope.

(** [int(s)] on a captured group: [None] stands for the [ValueError] that
    Python raises when the group is not a run of digits. *)
Definition py_int (s : str) : option Z :=
  match s with
  | [] => None
  | _ =>
      if forallb is_digit s
      then Some (fold_left (fun acc c => acc * 10 + Z.of_N (c - 48)) s 0)
      else None
  end.

(** [str.title()]: a cased character is upper-cased after an uncased one
    and lower-cased after a cased one. *)
Definition is_cased (c : N) : bool :=
  ((65 <=? c) && (c <=? 90))%N || ((97 <=? c) && (c <=? 122))%N.
Fixpoint title_aux (prev_cased : bool) (s : str) : str :=
  match s with
  | [] => []
  | c :: r =>
      (if is_cased c then (if prev_cased then lower_char c else upper_char c)
       else c) :: title_aux (is_cased c) r
  end.
Definition py_title (s : str) : str := title_aux false s.

(** Exceptions raised along the paths modelled here. *)
Inductive exn :=
| ValueError        (* datetime.replace with an hour or minute out of range *)
| NameError         (* an unbound name is evaluated *)
| AttributeError    (* [.get] on a [None] conversation state *)
| TypeError         (* a [None] event is subscripted *)
| OverflowError     (* a [timedelta] or [datetime] out of its range *)
| ExternalError.    (* a failure raised by an external collaborator *)

Inductive Res (A : Type) := Ok (a : A) | Raise (e : exn).
Arguments Ok {A} a.
Arguments Raise {A} e.

Definition res_bind {A B} (m : Res A) (k : A -> Res B) : Res B :=
  match m with Ok a => k a | Raise e => Raise e end.
Notation "x <- m ;; k" := (res_bind m (fun x => k))
  (at level 61, m at next level, right associativity).

(** Aware datetimes are wall-clock seconds in the user's timezone.
    [dt.replace(hour=h, minute=m, second=0, microsecond=0)]: *)
Definition day_start (t : Z) : Z := t - t mod 86400.
Definition dt_replace (t h m : Z) : Res Z :=
  if (0 <=? h) && (h <=? 23) && (0 <=? m) && (m <=? 59)
  then Ok (day_start t + h * 3600 + m * 60)
  else Raise ValueError.

(** The external libraries the parser calls, at the user's timezone:
    [datetime.now(tz)], [dateparser.parse(_, settings={PREFER_DATES_FROM:
    future, TIMEZONE: tz, RETURN_AS_TIMEZONE_AWARE: True})], the spaCy
    model ([None] when it failed to load) and the entities [(label_, text)]
    of [self.nlp(text)]. *)
Record Env := {
  now : Z;
  dateparser : str -> option Z;
  nlp_loaded : bool;
  ents : str -> list (str * str)
}.

(* ------------------------------------------------------------------ *)
(** ** [SmartEventParser] tables *)

Definition hebrew_days : list (str * str) :=
  map (fun p => (u (fst p), u (snd p)))
  [("היום", "today"); ("מחר", "tomorrow"); ("מחרתיים", "day after tomorrow");
   ("ראשון", "sunday"); ("שני", "monday"); ("שלישי", "tuesday");
   ("רביעי", "wednesday"); ("חמישי", "thursday"); ("שישי", "friday");
   ("שבת", "saturday");
   ("יום ראשון", "sunday"); ("יום שני", "monday"); ("יום שלישי", "tuesday");
   ("יום רביעי", "wednesday"); ("יום חמישי", "thursday");
   ("יום שישי", "friday"); ("יום שבת", "saturday")]%string.

Definition event_keywords : list (str * list str) :=
  map (fun p => (u (fst p), map u (snd p)))
  [("meeting", ["meeting"; "meet"; "call"; "conference"; "discussion"; "פגישה"; "פגש"]);
   ("appointment", ["appointment"; "visit"; "checkup"; "session"; "תור"]);
   ("social", ["lunch"; "dinner"; "coffee"; "drink"; "party"; "event"; "ארוחה"; "קפה"]);
   ("work", ["standup"; "review"; "interview"; "presentation"; "demo"; "עבודה"]);
   ("personal", ["workout"; "gym"; "doctor"; "dentist"; "haircut"; "רופא"; "רופאה"; "אימון"])]%string.

(* ------------------------------------------------------------------ *)
(** ** [preprocess_text] *)

Definition replacements : list (str * str) :=
  map (fun p => (u (fst p), u (snd p)))
  [("tmrw", "tomorrow"); ("tom", "tomorrow"); ("tomorow", "tomorrow");
   ("tomoroworrow", "tomorrow"); ("mins", "minutes"); ("hr", "hour");
   ("hrs", "hours"); ("w/", "with"); ("mtg", "meeting");
   ("appt", "appointment")]%string.

Definition preprocess_text (text : str) : str :=
  let text_lower :=
    fold_left (fun t p => py_replace t (fst p) (snd p)) replacements
      (py_lower text) in
  join_space (py_split text_lower).

Example preprocess_ex :
  preprocess_text (u "Meeting with John tomorrow at 2pm")
  = u "meeting with john tomorroworrow at 2pm".
Proof. vm_compute. reflexivity. Qed.

(* ------------------------------------------------------------------ *)
(** ** Helper predicates of the parser *)

Definition time_words : list str :=
  map u ["am"; "pm"; "morning"; "afternoon"; "evening"; "tonight"; "hour";
         "minute"; "o'clock"; "בשעה"; "שעה"]%string.

Definition AmPm : re := Lits ["am"; "pm"]%string.

(** [r'\d+:\d+|\d+\s*(am|pm)'] *)
Definition time_expr_re : re :=
  Alt (seqs [plus D; Chr (ch ":"); plus D])
      (seqs [plus D; star S_; Grp 1 AmPm]).

Definition is_time_expression (text : str) : bool :=
  existsb (fun w => containsb w (py_lower text)) time_words
  || match re_search true time_expr_re text with Some _ => true | None => false end.

Definition date_words : list str :=
  map u ["today"; "tomorrow"; "yesterday"; "monday"; "tuesday"; "wednesday";
         "thursday"; "friday"; "saturday"; "sunday"; "next"; "this"; "last";
         "היום"; "מחר"; "ראשון"; "שני"; "שלישי"; "רביעי"; "חמישי"; "שישי";
         "שבת"]%string.

Definition is_date_word (text : str) : bool := in_strs (py_lower text) date_words.

Definition convert_to_24h (hour : Z) (ampm : str) : Z :=
  if str_eqb (py_lower ampm) (u "am") then (if hour =? 12 then 0 else hour)
  else (if hour =? 12 then 12 else hour + 12).

Definition clean_title (title : str) : str :=
  let title_lower := py_lower title in
  let title' :=
    match find (fun p => prefixb p title_lower) (map u ["a "; "an "; "the "]%string) with
    | Some p => skipn (length p) title
    | None => title
    end in
  py_title (py_strip title').

(* ------------------------------------------------------------------ *)
(** ** Time extraction ([extract_time_from_text_improved]) *)

(** The result dict: [hour], [minute] and, for a range, [end_hour] and
    [end_minute]. *)
Record TimePart := { tp_hour : Z; tp_minute : Z; tp_end : option (Z * Z) }.

(** Each pattern keeps its source text, which the code inspects. *)
Definition time_patterns : list (string * re) :=
  [ (* Range patterns: 2-3pm, 9:30-10:30am *)
    ("(\d{1,2})(?::(\d{2}))?\s*-\s*(\d{1,2})(?::(\d{2}))?\s*(am|pm)",
     seqs [Grp 1 (rep12 D); opt (Seq (Chr (ch ":")) (Grp 2 (Seq D D)));
           star S_; Chr (ch "-"); star S_;
           Grp 3 (rep12 D); opt (Seq (Chr (ch ":")) (Grp 4 (Seq D D)));
           star S_; Grp 5 AmPm]);
    (* Single time patterns: 2pm, 9:30am *)
    ("(\d{1,2})(?::(\d{2}))?\s*(am|pm)",
     seqs [Grp 1 (rep12 D); opt (Seq (Chr (ch ":")) (Grp 2 (Seq D D)));
           star S_; Grp 3 AmPm]);
    (* 24-hour format: 14:00, 09:30 *)
    ("(\d{1,2}):(\d{2})(?!\s*(?:am|pm))",
     seqs [Grp 1 (rep12 D); Chr (ch ":"); Grp 2 (Seq D D);
           NotAhead (Seq (star S_) AmPm)])]%string.

(** Number of groups of each pattern ([len(match.groups())]). *)
Fixpoint max_group (r : re) : nat :=
  match r with
  | Seq a b | Alt a b => Nat.max (max_group a) (max_group b)
  | Grp n a => Nat.max n (max_group a)
  | Star _ a | NotAhead a => max_group a
  | _ => 0
  end.

Definition int_group (s : str) (m : mobj) (n : nat) : option Z :=
  match group s m n with Some g => py_int g | None => None end.
(** [int(g) if g else 0] *)
Definition int_group_or0 (s : str) (m : mobj) (n : nat) : option Z :=
  match group s m n with
  | Some ((_ :: _) as g) => py_int g
  | _ => Some 0
  end.

(** One iteration of the loop body: [Some (Some tp)] returns, [Some None]
    is [continue] (a [ValueError] or an invalid 24-hour time), [None] when
    the pattern does not occur. *)
Definition time_try (text : str) (pat : string * re) : option (option TimePart) :=
  let (src, r) := pat in
  match re_search true r text with
  | None => None
  | Some m =>
      let ngroups := max_group r in
      Some
      (if containsb (u "-") (u src) && Nat.leb 5 ngroups then
         match int_group text m 1, int_group_or0 text m 2,
               int_group text m 3, int_group_or0 text m 4, group text m 5 with
         | Some sh, Some sm, Some eh, Some em, Some ampm =>
             Some {| tp_hour := convert_to_24h sh ampm; tp_minute := sm;
                     tp_end := Some (convert_to_24h eh ampm, em) |}
         | _, _, _, _, _ => None
         end
       else if Nat.leb 3 ngroups && match group text m 3 with
                                     | Some (_ :: _) => true | _ => false end then
         match int_group text m 1, int_group_or0 text m 2, group text m 3 with
         | Some h, Some mi, Some ampm =>
             Some {| tp_hour := convert_to_24h h ampm; tp_minute := mi;
                     tp_end := None |}
         | _, _, _ => None
         end
       else if Nat.leb 2 ngroups then
         match int_group text m 1, int_group text m 2 with
         | Some h, Some mi =>
             if (0 <=? h) && (h <=? 23) && (0 <=? mi) && (mi <=? 59)
             then Some {| tp_hour := h; tp_minute := mi; tp_end := None |}
             else None
         | _, _ => None
         end
       else None)
  end.

Fixpoint first_some {A B} (f : A -> option (option B)) (l : list A) : option B :=
  match l with
  | [] => None
  | x :: r => match f x with Some (Some b) => Some b | _ => first_some f r end
  end.

Definition extract_time_from_text_improved (text : str) : option TimePart :=
  first_some (time_try text) time_patterns.

Example time_ex1 :
  extract_time_from_text_improved (u "meeting with john tomorroworrow at 2pm")
  = Some {| tp_hour := 14; tp_minute := 0; tp_end := None |}.
Proof. vm_compute. reflexivity. Qed.
Example time_ex2 :
  extract_time_from_text_improved (u "sync 9:30-10:30am")
  = Some {| tp_hour := 9; tp_minute := 30; tp_end := Some (10, 30) |}.
Proof. vm_compute. reflexivity. Qed.
Example time_ex3 :
  extract_time_from_text_improved (u "sync at 14:05 ok")
  = Some {| tp_hour := 14; tp_minute := 5; tp_end := None |}.
Proof. vm_compute. reflexivity. Qed.

(* ------------------------------------------------------------------ *)
(** ** Date and datetime extraction *)

(** The [datetime_info] dict: [start] and, optionally, [end]. *)
Record DTInfo := { dt_start : Z; dt_end : option Z }.

(** The loop over [self.hebrew_days]: the first day token contained in the
    text whose English name [dateparser] resolves. *)
Fixpoint hebrew_date_scan (env : Env) (text : str) (l : list (str * str))
  : option Z :=
  match l with
  | [] => None
  | (hd, en) :: r =>
      if containsb hd text then
        match dateparser env en with
        | Some d => Some d
        | None => hebrew_date_scan env text r
        end
      else hebrew_date_scan env text r
  end.

Definition hebrew_time_patterns : list re :=
  [ (* בשעה 14:00 *)
    seqs [L "בשעה"; plus S_; Grp 1 (rep12 D); Chr (ch ":"); Grp 2 (Seq D D)];
    (* בשעה 14 *)
    seqs [L "בשעה"; plus S_; Grp 1 (rep12 D)];
    (* ב14:00 *)
    seqs [L "ב"; Grp 1 (rep12 D); Chr (ch ":"); Grp 2 (Seq D D)];
    (* 14:00 *)
    seqs [Grp 1 (rep12 D); Chr (ch ":"); Grp 2 (Seq D D)] ]%string.

Definition hebrew_time_try (text : str) (r : re) : option (option (Z * Z)) :=
  match re_search false r text with
  | None => None
  | Some m =>
      Some
      (match int_group text m 1,
             (if Nat.leb 2 (max_group r) then int_group_or0 text m 2 else Some 0) with
       | Some h, Some mi =>
           if (0 <=? h) && (h <=? 23) && (0 <=? mi) && (mi <=? 59)
           then Some (h, mi) else None
       | _, _ => None
       end)
  end.

Definition hebrew_time (text : str) : option (Z * Z) :=
  first_some (hebrew_time_try text) hebrew_time_patterns.

Definition extract_hebrew_datetime (env : Env) (text : str) : Res (option DTInfo) :=
  match hebrew_date_scan env text hebrew_days, hebrew_time text with
  | Some d, Some (h, mi) =>
      s <- dt_replace d h mi ;; Ok (Some {| dt_start := s; dt_end := None |})
  | Some d, None =>
      s <- dt_replace d 9 0 ;; Ok (Some {| dt_start := s; dt_end := None |})
  | None, Some (h, mi) =>
      s <- dt_replace (now env) h mi ;; Ok (Some {| dt_start := s; dt_end := None |})
  | None, None => Ok None
  end.

Definition date_patterns : list str :=
  map u ["tomorrow"; "today"; "tonight";
         "next monday"; "next tuesday"; "next wednesday"; "next thursday";
         "next friday"; "next saturday"; "next sunday";
         "this monday"; "this tuesday"; "this wednesday"; "this thursday";
         "this friday"; "this saturday"; "this sunday";
         "monday"; "tuesday"; "wednesday"; "thursday"; "friday"; "saturday";
         "sunday"]%string.

Fixpoint english_date_scan (env : Env) (text_lower : str) (l : list str) : option Z :=
  match l with
  | [] => None
  | p :: r =>
      if containsb p text_lower then
        match dateparser env p with
        | Some d => Some d
        | None => english_date_scan env text_lower r
        end
      else english_date_scan env text_lower r
  end.

Definition extract_date_from_text (env : Env) (text : str) : option Z :=
  match hebrew_date_scan env text hebrew_days with
  | Some d => Some d
  | None => english_date_scan env (py_lower text) date_patterns
  end.

Definition extract_datetime (env : Env) (text : str) : Res (option DTInfo) :=
  match extract_time_from_text_improved text, extract_date_from_text env text with
  | Some tp, Some d =>
      s <- dt_replace d (tp_hour tp) (tp_minute tp) ;;
      match tp_end tp with
      | Some (eh, em) =>
          (* [if time_part.get('end_hour')]: an end hour of 0 is falsy *)
          if eh =? 0 then Ok (Some {| dt_start := s; dt_end := None |})
          else e <- dt_replace d eh em ;;
               Ok (Some {| dt_start := s; dt_end := Some e |})
      | None => Ok (Some {| dt_start := s; dt_end := None |})
      end
  | _, _ =>
      match dateparser env text with
      | Some t => Ok (Some {| dt_start := t; dt_end := None |})
      | None => Ok None
      end
  end.

Definition extract_datetime_enhanced (env : Env) (text : str) : Res (option DTInfo) :=
  h <- extract_hebrew_datetime env text ;;
  match h with
  | Some r => Ok (Some r)
  | None => extract_datetime env text
  end.

(* ------------------------------------------------------------------ *)
(** ** Durations *)

Definition duration_patterns : list (string * re) :=
  [ ("for\s+(\d+)\s+(hours?|hrs?)",
     seqs [L "for"; plus S_; Grp 1 (plus D); plus S_;
           Grp 2 (Alt (Seq (L "hour") (opt (L "s"))) (Seq (L "hr") (opt (L "s"))))]);
    ("for\s+(\d+)\s+(minutes?|mins?)",
     seqs [L "for"; plus S_; Grp 1 (plus D); plus S_;
           Grp 2 (Alt (Seq (L "minute") (opt (L "s"))) (Seq (L "min") (opt (L "s"))))]);
    ("(\d+)\s+(hours?|hrs?)\s+(?:long|meeting|session)",
     seqs [Grp 1 (plus D); plus S_;
           Grp 2 (Alt (Seq (L "hour") (opt (L "s"))) (Seq (L "hr") (opt (L "s"))));
           plus S_; Lits ["long"; "meeting"; "session"]]);
    ("(\d+)\s+(minutes?|mins?)\s+(?:long|meeting|session)",
     seqs [Grp 1 (plus D); plus S_;
           Grp 2 (Alt (Seq (L "minute") (opt (L "s"))) (Seq (L "min") (opt (L "s"))));
           plus S_; Lits ["long"; "meeting"; "session"]]);
    (* 1h30m or 2h *)
    ("(\d+)\s*h\s*(\d+)?m?",
     seqs [Grp 1 (plus D); star S_; L "h"; star S_; opt (Grp 2 (plus D));
           opt (L "m")]) ]%string.

(** The body of the loop for one pattern: the seconds of the [timedelta]
    it returns ([Some (Some _)]), or [continue] after a [ValueError] of
    [int] or a unit that is neither hours nor minutes ([Some None]). *)
Definition duration_try (text : str) (pat : string * re) : option (option Z) :=
  let (src, r) := pat in
  match re_search true r text with
  | None => None
  | Some m =>
      Some
      (if containsb (u "h") (u src) then
         (* hours = int(group(1)); minutes = int(group(2)) if group(2) else 0 *)
         match int_group text m 1, int_group_or0 text m 2 with
         | Some hs, Some ms => Some (hs * 3600 + ms * 60)
         | _, _ => None
         end
       else
         match int_group text m 1, group text m 2 with
         | Some num, Some unit =>
             let unit := py_lower unit in
             if containsb (u "hour") unit || containsb (u "hr") unit then Some (num * 3600)
             else if containsb (u "minute") unit || containsb (u "min") unit
             then Some (num * 60)
             else None
         | _, _ => None
         end)
  end.

(** [timedelta(seconds=secs)]: [OverflowError] when the normalised day
    count exceeds 999999999 in magnitude. *)
Definition timedelta_of (secs : Z) : Res Z :=
  if 999999999 <? Z.abs (secs / 86400) then Raise OverflowError else Ok secs.

(** The [OverflowError] of [timedelta] is not caught ([except ValueError]
    only): it leaves the loop and the function. *)
Definition extract_duration (text : str) : Res (option Z) :=
  match first_some (duration_try text) duration_patterns with
  | Some secs => d <- timedelta_of secs ;; Ok (Some d)
  | None => Ok None
  end.

Definition any_in (ws : list string) (t : str) : bool :=
  existsb (fun w => containsb (u w) t) ws.

Definition get_default_duration (title : str) : Z :=
  let title_lower := py_lower title in
  if any_in ["standup"; "daily"; "brief"]%string title_lower then 15 * 60
  else if any_in ["lunch"; "dinner"; "coffee"; "drink"; "ארוחה"; "קפה"]%string title_lower then 3600
  else if any_in ["doctor"; "dentist"; "appointment"; "רופא"; "רופאה"; "תור"]%string title_lower then 30 * 60
  else if any_in ["interview"; "presentation"; "demo"]%string title_lower then 3600
  else if any_in ["workout"; "gym"; "exercise"; "אימון"]%string title_lower then 3600
  else if any_in ["פגישה"; "meeting"]%string title_lower then 3600
  else 3600.

Example duration_ex1 : extract_duration (u "sync for 2 hours") = Ok (Some 7200).
Proof. vm_compute. reflexivity. Qed.
Example duration_ex2 : extract_duration (u "sync for 45 minutes") = Ok (Some 2700).
Proof. vm_compute. reflexivity. Qed.
Example duration_ex3 : extract_duration (u "sync 1h30m") = Ok (Some 5400).
Proof. vm_compute. reflexivity. Qed.
Example duration_ex4 :
  extract_duration (u "sync for 99999999999 hours") = Raise OverflowError.
Proof. vm_compute. reflexivity. Qed.

(* ------------------------------------------------------------------ *)
(** ** Title extraction ([extract_title]) *)

Definition weekdays : list string :=
  ["monday"; "tuesday"; "wednesday"; "thursday"; "friday"; "saturday"; "sunday"]%string.

(** [(?:on|at|for|tomorrow|today|next|this|monday|...|sunday] *)
Definition en_markers : list re :=
  map L (List.app ["on"; "at"; "for"; "tomorrow"; "today"; "next"; "this"]%string weekdays).

Definition hebrew_title_patterns : list re :=
  [ (* (פגישה\s+עם\s+.+?)(?:\s+(?:מחר|היום|בשעה|\d{1,2}:\d{2})) *)
    seqs [Grp 1 (seqs [L "פגישה"; plus S_; L "עם"; plus S_; plus_lazy Dot]);
          plus S_;
          alts [L "מחר"; L "היום"; L "בשעה";
                seqs [rep12 D; Chr (ch ":"); D; D]]];
    (* (תור\s+.+?)(?:\s+(?:מחר|היום|בשעה|\d{1,2}:\d{2})) *)
    seqs [Grp 1 (seqs [L "תור"; plus S_; plus_lazy Dot]);
          plus S_;
          alts [L "מחר"; L "היום"; L "בשעה";
                seqs [rep12 D; Chr (ch ":"); D; D]]];
    (* (.+?)\s+(?:מחר|היום)(?:\s+בשעה) *)
    seqs [Grp 1 (plus_lazy Dot); plus S_; Lits ["מחר"; "היום"];
          plus S_; L "בשעה"];
    (* (?:meeting|call|appointment|session)\s+(?:with\s+)?(.+?)
       (?:\s+(?:on|at|...|sunday|\d{1,2}(?:am|pm))) *)
    seqs [Lits ["meeting"; "call"; "appointment"; "session"]; plus S_;
          opt (Seq (L "with") (plus S_)); Grp 1 (plus_lazy Dot);
          plus S_; alts (List.app en_markers [Seq (rep12 D) AmPm])];
    (* (.+?)\s+(?:meeting|appointment|call|session)
       (?:\s+(?:on|at|...|sunday|\d{1,2}(?:am|pm))) *)
    seqs [Grp 1 (plus_lazy Dot); plus S_;
          Lits ["meeting"; "appointment"; "call"; "session"];
          plus S_; alts (List.app en_markers [Seq (rep12 D) AmPm])];
    (* (.+?)(?:\s+(?:on|at|...|sunday|מחר|היום|בשעה|\d{1,2}(?::|am|pm))) *)
    seqs [Grp 1 (plus_lazy Dot); plus S_;
          alts (List.app en_markers
                  (List.app (map L ["מחר"; "היום"; "בשעה"])
                     [Seq (rep12 D) (Alt (Chr (ch ":")) AmPm)]))] ]%string.

Definition title_pattern_try (text : str) (r : re) : option (option str) :=
  match re_search true r text with
  | None => None
  | Some m =>
      Some
      (match group text m 1 with
       | Some g =>
           let title := py_strip g in
           if Nat.ltb 1 (length title) && negb (is_time_expression title)
              && negb (is_date_word title)
           then Some (clean_title title) else None
       | None => None
       end)
  end.

Definition ents_with (label : string) (doc : list (str * str)) : list str :=
  map snd (filter (fun e => str_eqb (fst e) (u label)) doc).

(** [', '.join(persons)] *)
Fixpoint join_comma (ws : list str) : str :=
  match ws with
  | [] => []
  | [w] => w
  | w :: r => w ++ u ", " ++ join_comma r
  end.

Definition context_stop : list str :=
  map u ["on"; "at"; "for"; "with"; "a"; "an"; "the"; "and"; "עם"; "ב"; "ו"]%string.

(** [words[j]] for [j] in [range(max(0, i-2), min(len(words), i+4))],
    keeping those that are not time or date words nor stop words. *)
Definition context_words (words : list str) (i : nat) : list str :=
  let lo := (i - 2)%nat in
  let hi := Nat.min (length words) (i + 4) in
  filter (fun w => negb (is_time_expression w) && negb (is_date_word w)
                   && negb (in_strs (py_lower w) context_stop))
         (firstn (hi - lo) (skipn lo words)).

Fixpoint keyword_words (kw : str) (words : list str) (i : nat) (rest : list str)
  : option str :=
  match rest with
  | [] => None
  | w :: r =>
      if containsb (py_lower kw) (py_lower w) then
        let cw := context_words words i in
        if Nat.leb 2 (length cw) then Some (clean_title (join_space (firstn 4 cw)))
        else keyword_words kw words (S i) r
      else keyword_words kw words (S i) r
  end.

Fixpoint keyword_scan (text : str) (words : list str) (kws : list str) : option str :=
  match kws with
  | [] => None
  | kw :: r =>
      if containsb kw (py_lower text) then
        match keyword_words kw words 0 words with
        | Some t => Some t
        | None => keyword_scan text words r
        end
      else keyword_scan text words r
  end.

Definition skip_words : list str :=
  map u ["schedule"; "add"; "create"; "set"; "up"; "book"; "plan"; "have";
         "a"; "an"; "the"]%string.

Fixpoint meaningful (words : list str) (acc : list str) : list str :=
  match words with
  | [] => acc
  | w :: r =>
      if negb (in_strs (py_lower w) skip_words) && negb (is_time_expression w)
         && negb (is_date_word w) && Nat.ltb 1 (length w)
      then let acc' := acc ++ [w] in
           if Nat.leb 3 (length acc') then acc' else meaningful r acc'
      else meaningful r acc
  end.

Definition extract_title (text : str) (doc : list (str * str)) : option str :=
  match first_some (title_pattern_try text) hebrew_title_patterns with
  | Some t => Some t
  | None =>
      let persons := ents_with "PERSON" doc in
      let orgs := ents_with "ORG" doc in
      let events := ents_with "EVENT" doc in
      match events, persons, orgs with
      | ev :: _, _, _ => Some ev
      | [], _ :: _, _ => Some (u "Meeting with " ++ join_comma persons)
      | [], [], o :: _ => Some (u "Meeting with " ++ o)
      | [], [], [] =>
          let words := py_split text in
          match keyword_scan text words (concat (map snd event_keywords)) with
          | Some t => Some t
          | None =>
              match meaningful words [] with
              | [] => None
              | mw => Some (clean_title (join_space mw))
              end
          end
      end
  end.

Example title_ex :
  extract_title (u "meeting with john tomorroworrow at 2pm") [] = Some (u "John").
Proof. vm_compute. reflexivity. Qed.

(* ------------------------------------------------------------------ *)
(** ** Location, confidence and [parse_event] *)

(** [(?:\s+(?:on|at|for|tomorrow|today|next|this|\d)|$)] *)
Definition loc_stop : re :=
  Alt (Seq (plus S_) (alts (List.app (map L ["on"; "at"; "for"; "tomorrow"; "today"; "next"; "this"]%string) [D])))
      Eol.
Definition NotCommaSpace : re := Cls true [CRange (ch ",") (ch ","); CSpace].
Definition AlNum : list citem :=
  [CRange (ch "A") (ch "Z"); CRange (ch "a") (ch "z"); CRange (ch "0") (ch "9")].

Definition location_patterns : list re :=
  [ (* (?:at|in|@)\s+([^,\s]+(?:\s+[^,\s]+)*?)(?:\s+(?:on|...|\d)|$) *)
    seqs [Lits ["at"; "in"; "@"]%string; plus S_;
          Grp 1 (Seq (plus NotCommaSpace)
                     (star_lazy (Seq (plus S_) (plus NotCommaSpace))));
          loc_stop];
    (* room\s+([A-Za-z0-9]+) *)
    seqs [L "room"; plus S_; Grp 1 (plus (Cls false AlNum))];
    (* office\s+([A-Za-z0-9\s]+?)(?:\s+(?:on|...|\d)|$) *)
    seqs [L "office"; plus S_; Grp 1 (plus_lazy (Cls false (List.app AlNum [CSpace])));
          loc_stop];
    (* conference\s+room\s+([A-Za-z0-9]+) *)
    seqs [L "conference"; plus S_; L "room"; plus S_; Grp 1 (plus (Cls false AlNum))] ].

Definition extract_location (text : str) (doc : list (str * str)) : str :=
  let from_ents :=
    map snd (filter (fun e => in_strs (fst e) (map u ["GPE"; "LOC"; "FAC"; "ORG"]%string)) doc) in
  let from_patterns :=
    concat (map (fun r => map py_strip
                   (filter (fun g => Nat.ltb 0 (length (py_strip g))) (re_findall true r text)))
              location_patterns) in
  match find (fun l => Nat.ltb 1 (length l) && negb (is_time_expression l))
             (List.app from_ents from_patterns) with
  | Some l => l
  | None => []
  end.

Definition b2z (b : bool) (n : Z) : Z := if b then n else 0.

Definition calculate_confidence (title : str) (datetime_info : option DTInfo)
    (location original_text : str) : Z :=
  let score :=
    (match title with
     | [] => 0
     | _ =>
         b2z (Nat.ltb 2 (length title)) 20
         + b2z (existsb (fun kw => containsb kw (py_lower title))
                        (concat (map snd event_keywords))) 10
         + b2z (Nat.leb 2 (length (py_split title))) 10
     end)
    + (match datetime_info with
       | Some di => 30 + b2z (match dt_end di with Some _ => true | None => false end) 10
       | None => 0
       end)
    + b2z (Nat.ltb 1 (length location)) 10
    + b2z (Nat.leb 4 (length (py_split original_text))) 5
    + b2z (any_in ["schedule"; "add"; "create"; "meeting"; "appointment"; "פגישה"; "תור"]%string
                  (py_lower original_text)) 5 in
  Z.min score 100.

Record Event := {
  ev_title : str;
  ev_start : Z;
  ev_end : Z;
  ev_location : str;
  ev_confidence : Z;
  ev_original_text : str
}.

(** The range of [datetime]: 0001-01-01 00:00:00 to 9999-12-31 23:59:59,
    in seconds from 1970-01-01. [datetime + timedelta] raises
    [OverflowError] outside it. *)
Definition datetime_min : Z := -62135596800.
Definition datetime_max : Z := 253402300799.
Definition datetime_add (t d : Z) : Res Z :=
  if (t + d <? datetime_min) || (datetime_max <? t + d) then Raise OverflowError
  else Ok (t + d).

(** [end_time]: the explicit end, else [start + duration] for a truthy
    (non-zero) duration, else [start + get_default_duration(title)]. *)
Definition end_time_of (title : str) (di : DTInfo) (duration : option Z) : Res Z :=
  match dt_end di with
  | Some e => Ok e
  | None =>
      match duration with
      | Some d => if d =? 0 then datetime_add (dt_start di) (get_default_duration title)
                  else datetime_add (dt_start di) d
      | None => datetime_add (dt_start di) (get_default_duration title)
      end
  end.

Definition parse_event (env : Env) (text0 : str) : Res (option Event) :=
  if negb (nlp_loaded env) then Ok None else
  let text := preprocess_text text0 in
  let doc := ents env text in
  let title := extract_title text doc in
  datetime_info <- extract_datetime_enhanced env text ;;
  let location := extract_location text doc in
  duration <- extract_duration text ;;
  match title with
  | None | Some [] => Ok None
  | Some t =>
      match datetime_info with
      | None => Ok None
      | Some di =>
          end_time <- end_time_of t di duration ;;
          Ok (Some {| ev_title := t;
                      ev_start := dt_start di;
                      ev_end := end_time;
                      ev_location := location;
                      ev_confidence := calculate_confidence t (Some di) location text;
                      ev_original_text := text |})
      end
  end.

(** A concrete environment: [dateparser] on the relative day words, the
    [en_core_web_sm] model loaded and returning no entities. *)
Definition sample_dateparser (nw : Z) (s : str) : option Z :=
  if str_eqb s (u "today") then Some nw
  else if str_eqb s (u "tomorrow") then Some (nw + 86400)
  else None.
Definition sample_env (nw : Z) : Env :=
  {| now := nw; dateparser := sample_dateparser nw; nlp_loaded := true;
     ents := fun _ => [] |}.

(** 2024-06-10T10:00:00Z, a Monday. *)
Definition jun10_10am : Z := 1717977600 + 36000.

(* ------------------------------------------------------------------ *)
(** ** [extract_calendar_name] *)

Definition calendar_patterns : list re :=
  [ (* calendar\s+(.+?)$ *)
    seqs [L "calendar"; plus S_; Grp 1 (plus_lazy Dot); Eol];
    (* in\s+calendar\s+(.+?)$ *)
    seqs [L "in"; plus S_; L "calendar"; plus S_; Grp 1 (plus_lazy Dot); Eol];
    (* to\s+calendar\s+(.+?)$ *)
    seqs [L "to"; plus S_; L "calendar"; plus S_; Grp 1 (plus_lazy Dot); Eol];
    (* (?:in|to|on)\s+calendar\s+(.+) *)
    seqs [Lits ["in"; "to"; "on"]; plus S_; L "calendar"; plus S_; Grp 1 (plus Dot)];
    (* calendar\s+([^\s].+?)(?:\s*$) *)
    seqs [L "calendar"; plus S_; Grp 1 (Seq (Cls true [CSpace]) (plus_lazy Dot));
          star S_; Eol] ]%string.

Definition calendar_try (text : str) (r : re) : option (option str) :=
  match re_search true r text with
  | None => None
  | Some m =>
      Some (match group text m 1 with
            | Some g => let name := py_strip g in
                        if Nat.leb 2 (length name) then Some name else None
            | None => None
            end)
  end.

Definition extract_calendar_name (text : str) : option str :=
  first_some (calendar_try text) calendar_patterns.

(* ------------------------------------------------------------------ *)
(** ** [main.py]: calendars, users and replies *)

Record Calendar := {
  cal_id : str;
  cal_name : str;
  cal_primary : bool;
  cal_access_role : str
}.

(** [find_matching_calendar] *)
Definition find_matching_calendar (requested_name : str) (calendars : list Calendar)
  : option Calendar :=
  let requested_lower := py_strip (py_lower requested_name) in
  match find (fun c => str_eqb (py_strip (py_lower (cal_name c))) requested_lower)
             calendars with
  | Some c => Some c
  | None =>
      find (fun c => str_eqb (join_space (py_split (py_lower (cal_name c))))
                             (join_space (py_split requested_lower)))
           calendars
  end.

(** [should_try_nlp] *)
Definition non_event_patterns : list re :=
  [ seqs [Bol; Grp 1 (Lits ["what"; "when"; "where"; "how"; "why"; "who"])];
    seqs [Bol; Grp 1 (Lits ["yes"; "no"; "ok"; "okay"; "thanks"; "thank you"])];
    seqs [Bol; plus D; Eol];
    seqs [Bol; Cls false [CRange (ch "a") (ch "z")]; Eol] ]%string.

Definition strong_indicators : list string :=
  ["meeting"; "appointment"; "call"; "lunch"; "dinner"; "coffee";
   "schedule"; "book"; "plan"; "create"; "add"; "set up";
   "doctor"; "dentist"; "interview"; "presentation"; "demo";
   "standup"; "review"; "workout"; "gym"; "party"; "event";
   "פגישה"; "תור"; "פגש"; "ארוחה"; "קפה"; "רופא"; "רופאה"]%string.

Definition time_indicators : list string :=
  ["tomorrow"; "today"; "tonight"; "morning"; "afternoon"; "evening";
   "monday"; "tuesday"; "wednesday"; "thursday"; "friday"; "saturday"; "sunday";
   "next week"; "this week"; "next month"; "next monday"; "this friday";
   "am"; "pm"; "o'clock";
   "מחר"; "היום"; "בוקר"; "צהריים"; "ערב"; "לילה";
   "ראשון"; "שני"; "שלישי"; "רביעי"; "חמישי"; "שישי"; "שבת";
   "בשעה"; "ב"]%string.

Definition person_indicators : list string :=
  ["with"; "and"; "john"; "sarah"; "mike"; "team"; "client"; "boss"; "עם"; "ו"]%string.

Definition action_words : list string :=
  ["meet"; "see"; "visit"; "go to"; "attend"]%string.

Definition nlp_time_patterns : list re :=
  [ seqs [rep12 D; Chr (ch ":"); D; D; star S_; Grp 1 AmPm];
    seqs [rep12 D; star S_; Grp 1 AmPm];
    seqs [rep12 D; Chr (ch "-"); rep12 D; star S_; Grp 1 AmPm];
    seqs [rep12 D; Chr (ch ":"); D; D];
    seqs [L "בשעה"; plus S_; rep12 D] ]%string.

Definition matches (o : option mobj) : bool :=
  match o with Some _ => true | None => false end.

Definition should_try_nlp (message_text : str) : bool :=
  if Nat.ltb (length (py_split message_text)) 3 then false else
  let message_lower := py_lower message_text in
  if existsb (fun r => matches (re_match false r message_lower)) non_event_patterns
  then false
  else if any_in strong_indicators message_lower then true
  else if any_in time_indicators message_lower
          && (any_in person_indicators message_lower
              || any_in action_words message_lower) then true
  else existsb (fun r => matches (re_search false r message_lower)) nlp_time_patterns.

Example should_try_nlp_ex1 :
  should_try_nlp (u "Meeting with John tomorrow at 2pm") = true.
Proof. vm_compute. reflexivity. Qed.
Example should_try_nlp_ex2 : should_try_nlp (u "what is on today") = false.
Proof. vm_compute. reflexivity. Qed.

(** [user.language] *)
Inductive Lang := En | He | Auto.

(** [user.conversation_step] *)
Inductive Step := ConfirmEvent | ChooseCalendar | EditEvent | OtherStep (s : str).

(** The decoded [conversation_state] JSON.  A parsed event is stashed with
    its datetimes as ISO strings and read back with [fromisoformat]; the
    round trip is the identity on the event. *)
Record Payload := {
  pl_parsed_event : option Event;
  pl_selected_calendar : option Calendar;
  pl_calendars : option (list Calendar)
}.

(** The [User] row, as far as the conversation handling reads and writes it.
    [conversation_state] is [None] when the column is empty or holds JSON
    that does not decode. *)
Record User := {
  language : Lang;
  google_access_token : bool;      (* truthiness of the stored token *)
  timezone : str;
  conversation_step : option Step;
  conversation_state : option Payload;
  conversation_updated : option Z  (* seconds, UTC *)
}.

Definition with_language (usr : User) (l : Lang) : User :=
  {| language := l; google_access_token := google_access_token usr;
     timezone := timezone usr; conversation_step := conversation_step usr;
     conversation_state := conversation_state usr;
     conversation_updated := conversation_updated usr |}.

Definition with_conversation (usr : User) (st : option Step) (pl : option Payload)
    (upd : option Z) : User :=
  {| language := language usr; google_access_token := google_access_token usr;
     timezone := timezone usr; conversation_step := st;
     conversation_state := pl; conversation_updated := upd |}.

(** [clear_conversation_state] *)
Definition clear_conversation_state (usr : User) : User :=
  with_conversation usr None None None.

(** [set_conversation_state(step, data)] at time [t] ([datetime.utcnow()]). *)
Definition set_conversation_state (t : Z) (usr : User) (step : Step) (data : option Payload)
  : User :=
  with_conversation usr (Some step) data (Some t).

(** [is_conversation_expired(timeout_minutes=30)] at time [t]. *)
Definition is_conversation_expired_t (timeout_minutes : Z) (t : Z) (usr : User) : bool :=
  match conversation_updated usr with
  | None => true
  | Some upd => timeout_minutes * 60 <? t - upd
  end.
Definition is_conversation_expired (t : Z) (usr : User) : bool :=
  is_conversation_expired_t 30 t usr.

(** Replies: the strings the handlers return, named by the branch of the
    source that builds them. *)
Inductive Reply :=
| Template (l : Lang) (key : string)   (* get_message_in_language(l, key) *)
| ConnectFirst (l : Lang)              (* try_nlp_event_creation, no token *)
| CalendarNotFound (req : str) (ev : Event) (cals : list Calendar)
| CalendarSelectionPrompt (ev : Event) (cals : list Calendar)
| ConfirmPrompt (ev : Event)           (* ask_for_confirmation *)
| UnderstandPrompt (ev : Event)        (* show_understanding_and_ask *)
| ConfirmReprompt (l : Lang) (ev : Event)  (* "Please reply with yes/no/edit" *)
| ConfirmCancelled (l : Lang)
| EditPrompt (l : Lang)
| EventDataLost
| SomethingWrong
| RangePrompt (l : Lang) (n : nat)    (* "Please enter a number between 1 and n" *)
| ListPrompt (l : Lang) (cals : list Calendar)
| SelectionCancelled (l : Lang)
| EditingSoon (l : Lang)
| ServiceReply (s : str).              (* built by an external collaborator *)

(** The collaborators [main.py] calls: the parser environment at a
    timezone, [datetime.utcnow()], the calendar client
    ([get_user_calendars]), the event creators and the exact commands that
    read the database or the calendar. *)
Record Services := {
  svc_env : str -> Env;
  utcnow : Z;
  get_user_calendars : User -> Res (list Calendar);
  create_event_in_specific_calendar : User -> Event -> Calendar -> Res Reply;
  create_event_automatically : User -> Event -> list Calendar -> Res Reply;
  create_event_from_confirmation : User -> Event -> Res Reply;
  run_command : str -> User -> Res Reply
}.

(** A state and exception monad over the user row. *)
Definition St (A : Type) := User -> Res A * User.
Definition st_ret {A} (a : A) : St A := fun usr => (Ok a, usr).
Definition st_bind {A B} (m : St A) (k : A -> St B) : St B :=
  fun usr => match m usr with
             | (Ok a, usr') => k a usr'
             | (Raise e, usr') => (Raise e, usr')
             end.
Definition st_lift {A} (r : Res A) : St A := fun usr => (r, usr).
Definition st_modify (f : User -> User) : St unit := fun usr => (Ok tt, f usr).
Definition st_get : St User := fun usr => (Ok usr, usr).
Notation "x <-- m ;;; k" := (st_bind m (fun x => k))
  (at level 61, m at next level, right associativity).

Definition set_state (svc : Services) (step : Step) (data : Payload) : St unit :=
  st_modify (fun usr => set_conversation_state (utcnow svc) usr step (Some data)).
Definition clear_state : St unit := st_modify clear_conversation_state.

Definition event_payload (ev : Event) : Payload :=
  {| pl_parsed_event := Some ev; pl_selected_calendar := None; pl_calendars := None |}.
Definition calendars_payload (ev : Event) (cals : list Calendar) : Payload :=
  {| pl_parsed_event := Some ev; pl_selected_calendar := None; pl_calendars := Some cals |}.

(** [[cal for cal in calendars if cal['access_role'] in ['owner', 'writer']]] *)
Definition writable_calendars_of (calendars : list Calendar) : list Calendar :=
  filter (fun c => in_strs (cal_access_role c) (map u ["owner"; "writer"]%string))
         calendars.


(** The body of the [try] block of [try_nlp_event_creation], after the
    connection check. *)
Definition try_nlp_body (svc : Services) (message_text : str) : St (option Reply) :=
  usr <-- st_get ;;;
  parsed_event <-- st_lift (parse_event (svc_env svc (timezone usr)) message_text) ;;;
  match parsed_event with
  | None => st_ret None
  | Some ev =>
      let confidence := ev_confidence ev in
      calendars <-- st_lift (get_user_calendars svc usr) ;;;
      let writable_calendars := writable_calendars_of calendars in
      match extract_calendar_name message_text with
      | Some requested_calendar_name =>
          match find_matching_calendar requested_calendar_name writable_calendars with
          | Some c =>
              r <-- st_lift (create_event_in_specific_calendar svc usr ev c) ;;;
              st_ret (Some r)
          | None =>
              (* show_calendar_not_found *)
              _ <-- set_state svc ChooseCalendar (calendars_payload ev writable_calendars) ;;;
              st_ret (Some (CalendarNotFound requested_calendar_name ev writable_calendars))
          end
      | None =>
          if Nat.ltb 1 (length writable_calendars) then
            (* ask_calendar_selection *)
            _ <-- set_state svc ChooseCalendar (calendars_payload ev writable_calendars) ;;;
            st_ret (Some (CalendarSelectionPrompt ev writable_calendars))
          else if 80 <=? confidence then
            r <-- st_lift (create_event_automatically svc usr ev writable_calendars) ;;;
            st_ret (Some r)
          else if 50 <=? confidence then
            (* ask_for_confirmation *)
            _ <-- set_state svc ConfirmEvent (event_payload ev) ;;;
            st_ret (Some (ConfirmPrompt ev))
          else if 30 <=? confidence then
            (* show_understanding_and_ask *)
            _ <-- set_state svc ConfirmEvent (event_payload ev) ;;;
            st_ret (Some (UnderstandPrompt ev))
          else st_ret None
      end
  end.

(** [try_nlp_event_creation].  The [except Exception] handler evaluates
    [logger.error("NLP parsing failed", e, {"phone": phone_number})];
    [phone_number] is neither a local of the function nor a global of
    [main.py], so the handler itself raises [NameError]. *)
Definition try_nlp_event_creation (svc : Services) (message_text : str)
  : St (option Reply) :=
  fun usr =>
    if negb (google_access_token usr) then (Ok (Some (ConnectFirst (language usr))), usr)
    else
      match try_nlp_body svc message_text usr with
      | (Raise _, usr') => (Raise NameError, usr')
      | r => r
      end.

Definition yes_words : list str :=
  map u ["yes"; "y"; "confirm"; "create"; "ok"; "okay"; "כן"; "אישור"]%string.
Definition no_words : list str :=
  map u ["no"; "n"; "cancel"; "nope"; "לא"; "בטל"]%string.
Definition edit_words : list str :=
  map u ["edit"; "change"; "modify"; "fix"; "עריכה"; "שנה"]%string.

Definition lang_of (l : Lang) : Lang := match l with He => He | _ => En end.

(** [handle_event_confirmation]; [data] is [conversation_data]. *)
Definition handle_event_confirmation (svc : Services) (message_text : str)
    (data : option Payload) : St Reply :=
  usr <-- st_get ;;;
  let message_lower := py_strip (py_lower message_text) in
  match data with
  | None => st_lift (Raise AttributeError)
  | Some pl =>
      if in_strs message_lower yes_words then
        match pl_parsed_event pl with
        | Some ev =>
            result <-- st_lift (match pl_selected_calendar pl with
                                | Some c => create_event_in_specific_calendar svc usr ev c
                                | None => create_event_from_confirmation svc usr ev
                                end) ;;;
            _ <-- clear_state ;;;
            st_ret result
        | None => _ <-- clear_state ;;; st_ret EventDataLost
        end
      else if in_strs message_lower no_words then
        _ <-- clear_state ;;; st_ret (ConfirmCancelled (lang_of (language usr)))
      else if in_strs message_lower edit_words then
        _ <-- set_state svc EditEvent pl ;;; st_ret (EditPrompt (lang_of (language usr)))
      else
        match pl_parsed_event pl with
        | Some ev => st_ret (ConfirmReprompt (lang_of (language usr)) ev)
        | None => _ <-- clear_state ;;; st_ret SomethingWrong
        end
  end.

(** [int(s)] for the calendar number: an optional sign and ASCII digits. *)
Definition py_int_signed (s : str) : option Z :=
  match s with
  | c :: r =>
      if (c =? ch "-")%N then option_map Z.opp (py_int r)
      else if (c =? ch "+")%N then py_int r
      else py_int s
  | [] => None
  end.

(** [handle_calendar_selection] *)
Definition handle_calendar_selection (svc : Services) (message_text : str)
    (data : option Payload) : St (option Reply) :=
  usr <-- st_get ;;;
  if should_try_nlp message_text then
    _ <-- clear_state ;;; try_nlp_event_creation svc message_text
  else
    match py_int_signed (py_strip message_text) with
    | Some selection =>
        match data with
        | None => st_lift (Raise AttributeError)
        | Some pl =>
            let calendars := match pl_calendars pl with Some l => l | None => [] end in
            if (1 <=? selection) && (selection <=? Z.of_nat (length calendars)) then
              match nth_error calendars (Z.to_nat (selection - 1)), pl_parsed_event pl with
              | Some c, Some ev =>
                  result <-- st_lift (create_event_in_specific_calendar svc usr ev c) ;;;
                  _ <-- clear_state ;;;
                  st_ret (Some result)
              | _, _ => st_lift (Raise TypeError)
              end
            else st_ret (Some (RangePrompt (lang_of (language usr)) (length calendars)))
        end
    | None =>
        let message_lower := py_strip (py_lower message_text) in
        if in_strs message_lower (map u ["cancel"; "back"; "בטל"; "חזור"]%string) then
          _ <-- clear_state ;;; st_ret (Some (SelectionCancelled (lang_of (language usr))))
        else
          match data with
          | None => st_lift (Raise AttributeError)
          | Some pl =>
              st_ret (Some (ListPrompt (lang_of (language usr))
                              (match pl_calendars pl with Some l => l | None => [] end)))
          end
    end.

(** [handle_event_editing] *)
Definition handle_event_editing : St Reply :=
  usr <-- st_get ;;;
  _ <-- clear_state ;;; st_ret (EditingSoon (lang_of (language usr))).

(** [handle_conversation_flow] *)
Definition handle_conversation_flow (svc : Services) (message_text : str)
  : St (option Reply) :=
  usr <-- st_get ;;;
  if is_conversation_expired (utcnow svc) usr then
    _ <-- clear_state ;;; st_ret None
  else
    let data := conversation_state usr in
    match conversation_step usr with
    | Some ConfirmEvent =>
        r <-- handle_event_confirmation svc message_text data ;;; st_ret (Some r)
    | Some ChooseCalendar => handle_calendar_selection svc message_text data
    | Some EditEvent => r <-- handle_event_editing ;;; st_ret (Some r)
    | _ => st_ret None
    end.

(** [detect_user_language] *)
Definition detect_user_language (message_text : str) : Lang :=
  if existsb (fun c => (1424 <=? c)%N && (c <=? 1535)%N) message_text then He else En.

(** [handle_cancel_command]: a conversation step is truthy unless it is the
    empty string. *)
Definition step_truthy (s : option Step) : bool :=
  match s with
  | None | Some (OtherStep []) => false
  | Some _ => true
  end.

Definition handle_cancel_command : St Reply :=
  usr <-- st_get ;;;
  if step_truthy (conversation_step usr) then
    _ <-- clear_state ;;; st_ret (Template (language usr) "cancel_with_conversation")
  else st_ret (Template (language usr) "cancel_without_conversation").

Definition exact_commands : list str :=
  map u ["today"; "upcoming"; "connect"; "status"; "hello"; "help"; "add"; "cancel";
         "test reminder"; "reminder settings"; "sync all events"; "sync events";
         "reminders"; "scheduled reminders";
         "היום"; "קרוב"; "התחבר"; "סטטוס"; "שלום"; "עזרה"; "הוסף"; "בטל";
         "תזכורת בדיקה"; "הגדרות תזכורת"; "סנכרן כל האירועים"; "סנכרן אירועים";
         "תזכורות"; "תזכורות מתוזמנות"]%string.

(** The part of [process_message] after the conversation flow: language
    switching, exact commands, and the NLP path. *)
Definition command_processing (svc : Services) (message_text message_lower : str)
  : St Reply :=
  usr <-- st_get ;;;
  if in_strs message_lower (map u ["עבור לאנגלית"; "switch to english"]%string) then
    _ <-- st_modify (fun x => with_language x En) ;;; st_ret (Template En "language_switched")
  else if in_strs message_lower (map u ["עבור לעברית"; "switch to hebrew"]%string) then
    _ <-- st_modify (fun x => with_language x He) ;;; st_ret (Template He "language_switched")
  else if in_strs message_lower exact_commands then
    if in_strs message_lower (map u ["cancel"; "בטל"]%string) then handle_cancel_command
    else if in_strs message_lower (map u ["hello"; "שלום"]%string) then
      st_ret (Template (language usr) "welcome")
    else if in_strs message_lower (map u ["add"; "הוסף"]%string) then
      st_ret (Template (language usr) "nlp_failed")
    else st_lift (run_command svc message_lower usr)
  else if negb (google_access_token usr) then
    if should_try_nlp message_text then st_ret (Template (language usr) "not_connected")
    else st_ret (Template (language usr) "unknown_command")
  else if should_try_nlp message_text then
    nlp_result <-- try_nlp_event_creation svc message_text ;;;
    match nlp_result with
    | Some r => st_ret r
    | None => st_ret (Template (language usr) "nlp_failed")
    end
  else st_ret (Template (language usr) "unknown_command").

(** [process_message] for the user row of the sender. *)
Definition process_message (svc : Services) (message_text : str) : St Reply :=
  _ <-- (match message_text with
         | [] => st_ret tt
         | _ => st_modify (fun x => with_language x (detect_user_language message_text))
         end) ;;;
  let message_lower := py_strip (py_lower message_text) in
  usr <-- st_get ;;;
  conversation_result <--
    (if step_truthy (conversation_step usr)
        && negb (is_conversation_expired (utcnow svc) usr)
     then handle_conversation_flow svc message_text
     else st_ret None) ;;;
  match conversation_result with
  | Some r => st_ret r
  | None => command_processing svc message_text message_lower
  end.

(** An event used where a default is needed. *)
Definition empty_event : Event :=
  {| ev_title := []; ev_start := 0; ev_end := 0; ev_location := [];
     ev_confidence := 0; ev_original_text := [] |}.

Definition event_of (r : Res (option Event)) : Event :=
  match r with Ok (Some e) => e | _ => empty_event end.

(* ------------------------------------------------------------------ *)
(** * Sample inputs and the spec's matching rules *)

(** The two equalities the spec describes for exact calendar matches:
    after lowercasing and trimming, and after also collapsing runs of
    white space. *)
Definition name_matches_trimmed (requested : str) (c : Calendar) : bool :=
  str_eqb (py_strip (py_lower (cal_name c))) (py_strip (py_lower requested)).

Definition name_matches_collapsed (requested : str) (c : Calendar) : bool :=
  str_eqb (join_space (py_split (py_lower (cal_name c))))
          (join_space (py_split (py_strip (py_lower requested)))).

(** Sample messages and calendars. *)
Definition c1_range_text : str := u "Meeting tomorrow 3-2pm".
Definition c1_plain_text : str := u "Lunch with Sarah tomorrow at 1pm".
Definition c2_calendar : Calendar :=
  {| cal_id := u "team@group.calendar.google.com"; cal_name := u "Team Calendars";
     cal_primary := false; cal_access_role := u "owner" |}.
Definition c2_request : str := u "Team Calendar".
Definition c3_text : str := u "Meeting with John tomorrow at 2pm".
Definition c6_text : str := u "meeting tomorrow at 13pm".

(** Collaborators that succeed: the parser environment of [sample_env] at
    every timezone, a fixed clock and calendar list, and event creators and
    commands that return their confirmation text. *)
Definition sample_services (nw : Z) (cals : list Calendar) : Services :=
  {| svc_env := fun _ => sample_env nw;
     utcnow := nw;
     get_user_calendars := fun _ => Ok cals;
     create_event_in_specific_calendar := fun _ _ _ => Ok (ServiceReply (u "Event created"));
     create_event_automatically := fun _ _ _ => Ok (ServiceReply (u "Event created"));
     create_event_from_confirmation := fun _ _ => Ok (ServiceReply (u "Event created"));
     run_command := fun _ _ => Ok (ServiceReply (u "Done")) |}.

(** A connected English-speaking user with no conversation. *)
Definition sample_user : User :=
  {| language := En; google_access_token := true; timezone := u "UTC";
     conversation_step := None; conversation_state := None;
     conversation_updated := None |}.

(** The same user waiting for a confirmation of the C3 event, stored
    [age] seconds before 2024-06-10T10:00:00Z. *)
Definition confirm_user (age : Z) : User :=
  with_conversation sample_user (Some ConfirmEvent)
    (Some (event_payload (event_of (parse_event (sample_env jun10_10am) c3_text))))
    (Some (jun10_10am - age)).

Definition c2_owner_calendar : Calendar :=
  {| cal_id := u "primary"; cal_name := u "Personal"; cal_primary := true;
     cal_access_role := u "owner" |}.
Definition c7_services : Services := sample_services jun10_10am [c2_owner_calendar].
Definition c7_event : Event := event_of (parse_event (sample_env jun10_10am) c3_text).

(** The collaborators of [svc], except that creating an event in a
    specific calendar fails unless the calendar is writable (role
    ['owner'] or ['writer']). *)
Definition services_writable_only (svc : Services) : Services :=
  {| svc_env := svc_env svc;
     utcnow := utcnow svc;
     get_user_calendars := get_user_calendars svc;
     create_event_in_specific_calendar := fun usr ev c =>
       if in_strs (cal_access_role c) (map u ["owner"; "writer"]%string)
       then create_event_in_specific_calendar svc usr ev c
       else Raise ExternalError;
     create_event_automatically := create_event_automatically svc;
     create_event_from_confirmation := create_event_from_confirmation svc;
     run_command := run_command svc |}.

(* ------------------------------------------------------------------ *)
(** * Predicates used by the statements *)

(** A character that [str.isspace] rejects. *)
Definition nonspace (c : N) : bool := negb (is_space c).

(** A step of the handlers that leaves [user.language] as it is. *)
Definition keeps_language {A} (m : St A) : Prop :=
  forall usr, language (snd (m usr)) = language usr.

(* ------------------------------------------------------------------ *)
(** * Lemmas *)

Lemma first_some_spec {A B} (f : A -> option (option B)) (l : list A) (b : B) :
  first_some f l = Some b -> exists x, In x l /\ f x = Some (Some b).
Proof.
  induction l as [|x r IH]; simpl; [discriminate|].
  destruct (f x) as [[b'|]|] eqn:E; intro H.
  - inversion H; subst. exists x. auto.
  - destruct (IH H) as [y [Hy Hf]]. exists y. auto.
  - destruct (IH H) as [y [Hy Hf]]. exists y. auto.
Qed.

Lemma py_int_nonneg (s : str) (z : Z) : py_int s = Some z -> 0 <= z.
Proof.
  unfold py_int. destruct s as [|c r]; [discriminate|].
  destruct (forallb is_digit (c :: r)); [|discriminate].
  intro H; inversion H; subst; clear H.
  assert (Hg : forall l acc, 0 <= acc ->
            0 <= fold_left (fun acc c => acc * 10 + Z.of_N (c - 48)) l acc).
  { induction l as [|d l IH]; simpl; intros acc Hacc; [lia|].
    apply IH. pose proof (N2Z.is_nonneg (d - 48)). lia. }
  apply Hg. lia.
Qed.

Lemma int_group_nonneg s m n z : int_group s m n = Some z -> 0 <= z.
Proof.
  unfold int_group. destruct (group s m n); [apply py_int_nonneg|discriminate].
Qed.

Lemma int_group_or0_nonneg s m n z : int_group_or0 s m n = Some z -> 0 <= z.
Proof.
  unfold int_group_or0. destruct (group s m n) as [[|c r]|].
  - intro H; inversion H; lia.
  - apply py_int_nonneg.
  - intro H; inversion H; lia.
Qed.

Lemma duration_try_nonneg text pat d :
  duration_try text pat = Some (Some d) -> 0 <= d.
Proof.
  destruct pat as [src r]. unfold duration_try.
  destruct (re_search true r text) as [m|]; [|discriminate].
  destruct (containsb (u "h") (u src)).
  - destruct (int_group text m 1) as [hs|] eqn:E1; [|discriminate].
    destruct (int_group_or0 text m 2) as [ms|] eqn:E2; [|discriminate].
    apply int_group_nonneg in E1. apply int_group_or0_nonneg in E2.
    intro H; inversion H; lia.
  - destruct (int_group text m 1) as [num|] eqn:E1; [|discriminate].
    apply int_group_nonneg in E1.
    destruct (group text m 2) as [unit|]; [|discriminate].
    destruct (_ || _); [intro H; inversion H; lia|].
    destruct (_ || _); [intro H; inversion H; lia|discriminate].
Qed.

Lemma extract_duration_found text d :
  extract_duration text = Ok (Some d) ->
  first_some (duration_try text) duration_patterns = Some d
  /\ Z.abs (d / 86400) <= 999999999.
Proof.
  unfold extract_duration, timedelta_of.
  destruct (first_some (duration_try text) duration_patterns) as [x|]; [|discriminate].
  destruct (999999999 <? Z.abs (x / 86400)) eqn:E; cbn [res_bind]; [discriminate|].
  intro H. inversion H; subst. split; [reflexivity|]. apply Z.ltb_ge in E. exact E.
Qed.

Lemma extract_duration_nonneg text d : extract_duration text = Ok (Some d) -> 0 <= d.
Proof.
  intro H. destruct (extract_duration_found _ _ H) as [H1 _].
  destruct (first_some_spec _ _ _ H1) as [x [_ Hx]].
  exact (duration_try_nonneg _ _ _ Hx).
Qed.

Lemma get_default_duration_pos title : 0 < get_default_duration title.
Proof.
  unfold get_default_duration.
  repeat match goal with |- context [if ?b then _ else _] => destruct b end; lia.
Qed.

Lemma day_start_shift t x :
  0 <= x < 86400 -> day_start (day_start t + x) = day_start t.
Proof.
  intro Hx. unfold day_start.
  rewrite (Z.mod_eq t 86400) by lia.
  replace (t - (t - 86400 * (t / 86400)) + x) with (x + (t / 86400) * 86400) by lia.
  rewrite Z.mod_add by lia. rewrite Z.mod_small by lia. lia.
Qed.

Lemma dt_replace_ok t h m s :
  dt_replace t h m = Ok s ->
  0 <= h <= 23 /\ 0 <= m <= 59 /\ s = day_start t + h * 3600 + m * 60.
Proof.
  unfold dt_replace.
  destruct ((0 <=? h) && (h <=? 23) && (0 <=? m) && (m <=? 59)) eqn:E;
    [|discriminate].
  intro H; inversion H; subst.
  repeat rewrite andb_true_iff in E. repeat rewrite Z.leb_le in E. lia.
Qed.

(** Only the generic time-range path produces an explicit end. *)
Lemma hebrew_no_end env text di :
  extract_hebrew_datetime env text = Ok (Some di) -> dt_end di = None.
Proof.
  unfold extract_hebrew_datetime.
  destruct (hebrew_date_scan env text hebrew_days), (hebrew_time text) as [[h mi]|];
    intro H; try discriminate;
    match type of H with context [dt_replace ?a ?b ?c] => destruct (dt_replace a b c) end;
    simpl in H; inversion H; reflexivity.
Qed.

Lemma extract_datetime_end env text di e :
  extract_datetime env text = Ok (Some di) -> dt_end di = Some e ->
  exists tp eh em d,
    extract_time_from_text_improved text = Some tp /\ tp_end tp = Some (eh, em) /\
    eh <> 0 /\ extract_date_from_text env text = Some d /\
    dt_replace d (tp_hour tp) (tp_minute tp) = Ok (dt_start di) /\
    dt_replace d eh em = Ok e.
Proof.
  unfold extract_datetime.
  destruct (extract_time_from_text_improved text) as [tp|] eqn:Et;
  destruct (extract_date_from_text env text) as [d|] eqn:Ed.
  - destruct (dt_replace d (tp_hour tp) (tp_minute tp)) as [s|x] eqn:Es; simpl;
      [|discriminate].
    destruct (tp_end tp) as [[eh em]|] eqn:Ee.
    + destruct (eh =? 0) eqn:E0.
      * intros H1 H2; inversion H1; subst; discriminate.
      * destruct (dt_replace d eh em) as [e'|x] eqn:Ee'; simpl; [|discriminate].
        intros H1 H2; inversion H1; subst; simpl in H2; inversion H2; subst.
        exists tp, eh, em, d. repeat split; auto. apply Z.eqb_neq; auto.
    + intros H1 H2; inversion H1; subst; discriminate.
  - destruct (dateparser env text); intros H1 H2; inversion H1; subst; discriminate.
  - destruct (dateparser env text); intros H1 H2; inversion H1; subst; discriminate.
  - destruct (dateparser env text); intros H1 H2; inversion H1; subst; discriminate.
Qed.

Lemma enhanced_end env text di e :
  extract_datetime_enhanced env text = Ok (Some di) -> dt_end di = Some e ->
  extract_hebrew_datetime env text = Ok None /\ extract_datetime env text = Ok (Some di).
Proof.
  unfold extract_datetime_enhanced.
  destruct (extract_hebrew_datetime env text) as [[h|]|x] eqn:Eh; cbn [res_bind];
    intros H1 H2; try discriminate.
  - inversion H1; subst. rewrite (hebrew_no_end _ _ _ Eh) in H2. discriminate.
  - split; auto.
Qed.

Lemma find_first {A} (f : A -> bool) (l : list A) (x : A) :
  find f l = Some x ->
  f x = true /\ exists pre post, l = pre ++ x :: post /\ Forall (fun y => f y = false) pre.
Proof.
  induction l as [|a l IH]; simpl; [discriminate|].
  destruct (f a) eqn:Ea.
  - intros H; inversion H; subst. split; [exact Ea|].
    exists [], l. split; [reflexivity|constructor].
  - intros H. destruct (IH H) as (Hx & pre & post & -> & Hpre).
    split; [exact Hx|]. exists (a :: pre), post. split; [reflexivity|].
    constructor; assumption.
Qed.

Lemma find_none_all {A} (f : A -> bool) (l : list A) :
  find f l = None -> Forall (fun y => f y = false) l.
Proof.
  induction l as [|a l IH]; simpl; [constructor|].
  destruct (f a) eqn:Ea; [discriminate|]. intros H. constructor; auto.
Qed.





Lemma hebrew_time_range text h m :
  hebrew_time text = Some (h, m) -> 0 <= h <= 23 /\ 0 <= m <= 59.
Proof.
  unfold hebrew_time. intro H.
  destruct (first_some_spec _ _ _ H) as (r & _ & Hr). clear H.
  unfold hebrew_time_try in Hr.
  destruct (re_search false r text) as [mo|]; [|discriminate].
  destruct (int_group text mo 1) as [hh|];
    [|cbn beta iota in Hr; discriminate].
  destruct (if Nat.leb 2 (max_group r) then int_group_or0 text mo 2 else Some 0) as [mm|];
    cbn beta iota in Hr; [|discriminate].
  destruct ((0 <=? hh) && (hh <=? 23) && (0 <=? mm) && (mm <=? 59)) eqn:E;
    [|discriminate].
  inversion Hr; subst.
  repeat rewrite andb_true_iff in E. repeat rewrite Z.leb_le in E. lia.
Qed.


(* ------------------------------------------------------------------ *)
(** * Claims *)

(** ** C1: the end of a parsed event *)

(** C1 (as stated: every non-null result of [parse_event] ends strictly
    after it starts) fails: on 2024-06-10, "Meeting tomorrow 3-2pm" is
    parsed with the range 15:00-14:00, whose end precedes its start. *)
Lemma C1_reversed_range :
  parse_event (sample_env jun10_10am) c1_range_text
    = Ok (Some (event_of (parse_event (sample_env jun10_10am) c1_range_text)))
  /\ ev_end (event_of (parse_event (sample_env jun10_10am) c1_range_text))
     < ev_start (event_of (parse_event (sample_env jun10_10am) c1_range_text)).
Proof. split; vm_compute; reflexivity. Qed.

(** C1 (amended): for every non-null result of [parse_event], the start is
    the one the datetime extractor found. Without an explicit end, the end
    is the start plus a non-zero duration phrase, else plus the default
    duration of the title, and is strictly after the start. With an
    explicit end, it comes from a time range ("H[:MM]-H[:MM] am|pm", with a
    non-zero end hour) found by the generic extractor after the
    script-specific one found nothing, and is the range's end clock time
    on the start's date, which may be at or before the start. *)
Theorem C1_end_time_after_start (env : Env) (text : str) (ev : Event) :
  parse_event env text = Ok (Some ev) ->
  exists di dur,
    extract_datetime_enhanced env (preprocess_text text) = Ok (Some di) /\
    extract_duration (preprocess_text text) = Ok dur /\
    ev_start ev = dt_start di /\
    (dt_end di = None ->
     ev_start ev < ev_end ev /\
     ((exists d, dur = Some d /\ d <> 0 /\ ev_end ev = ev_start ev + d) \/
      ((dur = None \/ dur = Some 0) /\
       ev_end ev = ev_start ev + get_default_duration (ev_title ev)))) /\
    (forall e, dt_end di = Some e ->
     ev_end ev = e /\
     extract_hebrew_datetime env (preprocess_text text) = Ok None /\
     exists tp eh em,
       extract_time_from_text_improved (preprocess_text text) = Some tp /\
       tp_end tp = Some (eh, em) /\ eh <> 0 /\
       ev_end ev = day_start (ev_start ev) + eh * 3600 + em * 60).
Proof.
  unfold parse_event. destruct (nlp_loaded env); simpl negb; cbv zeta;
    [|discriminate].
  destruct (extract_datetime_enhanced env (preprocess_text text))
    as [odi|x] eqn:Edt; cbn [res_bind]; [|discriminate].
  destruct (extract_duration (preprocess_text text)) as [dur|x] eqn:Edur;
    cbn [res_bind]; [|discriminate].
  destruct (extract_title (preprocess_text text) (ents env (preprocess_text text)))
    as [[|c r]|]; try discriminate.
  destruct odi as [di|]; [|discriminate].
  destruct (end_time_of (c :: r) di dur) as [en|x] eqn:Een; cbn [res_bind];
    [|discriminate].
  intro H. inversion H; subst; clear H.
  exists di, dur. cbn [ev_start ev_end ev_title].
  split; [reflexivity|]. split; [reflexivity|]. split; [reflexivity|]. split.
  - intro Hn. unfold end_time_of, datetime_add in Een. rewrite Hn in Een.
    pose proof (get_default_duration_pos (c :: r)).
    destruct dur as [d|].
    + destruct (d =? 0) eqn:Ez;
        match type of Een with context [if ?b then _ else _] => destruct b end;
        try discriminate; injection Een as <-.
      * apply Z.eqb_eq in Ez. subst d. split; [lia|]. right. split; [right|]; reflexivity.
      * pose proof (extract_duration_nonneg _ _ Edur). apply Z.eqb_neq in Ez.
        split; [lia|]. left. exists d. auto.
    + match type of Een with context [if ?b then _ else _] => destruct b end;
        try discriminate; injection Een as <-.
      split; [lia|]. right. split; [left|]; reflexivity.
  - intros e Ee. unfold end_time_of in Een. rewrite Ee in Een. injection Een as <-.
    split; [reflexivity|].
    destruct (enhanced_end _ _ _ _ Edt Ee) as [Eh Edt'].
    split; [exact Eh|].
    destruct (extract_datetime_end _ _ _ _ Edt' Ee)
      as (tp & eh & em & d & Et & Etp & Hne & Ed & Hs & He).
    exists tp, eh, em. repeat split; auto.
    apply dt_replace_ok in Hs. apply dt_replace_ok in He.
    destruct Hs as (Hh & Hm & ->). destruct He as (_ & _ & ->).
    replace (day_start d + tp_hour tp * 3600 + tp_minute tp * 60)
      with (day_start d + (tp_hour tp * 3600 + tp_minute tp * 60)) by lia.
    rewrite day_start_shift by lia. reflexivity.
Qed.

Lemma C1_end_time_after_start_witness :
  parse_event (sample_env jun10_10am) c1_plain_text
    = Ok (Some (event_of (parse_event (sample_env jun10_10am) c1_plain_text)))
  /\ exists di dur,
    extract_datetime_enhanced (sample_env jun10_10am) (preprocess_text c1_plain_text)
      = Ok (Some di) /\
    extract_duration (preprocess_text c1_plain_text) = Ok dur /\
    ev_start (event_of (parse_event (sample_env jun10_10am) c1_plain_text)) = dt_start di /\
    (dt_end di = None ->
     ev_start (event_of (parse_event (sample_env jun10_10am) c1_plain_text))
       < ev_end (event_of (parse_event (sample_env jun10_10am) c1_plain_text)) /\
     ((exists d, dur = Some d /\ d <> 0 /\
        ev_end (event_of (parse_event (sample_env jun10_10am) c1_plain_text))
        = ev_start (event_of (parse_event (sample_env jun10_10am) c1_plain_text)) + d) \/
      ((dur = None \/ dur = Some 0) /\
       ev_end (event_of (parse_event (sample_env jun10_10am) c1_plain_text))
       = ev_start (event_of (parse_event (sample_env jun10_10am) c1_plain_text))
         + get_default_duration
             (ev_title (event_of (parse_event (sample_env jun10_10am) c1_plain_text)))))) /\
    (forall e, dt_end di = Some e ->
     ev_end (event_of (parse_event (sample_env jun10_10am) c1_plain_text)) = e /\
     extract_hebrew_datetime (sample_env jun10_10am) (preprocess_text c1_plain_text)
       = Ok None /\
     exists tp eh em,
       extract_time_from_text_improved (preprocess_text c1_plain_text) = Some tp /\
       tp_end tp = Some (eh, em) /\ eh <> 0 /\
       ev_end (event_of (parse_event (sample_env jun10_10am) c1_plain_text))
       = day_start (ev_start (event_of (parse_event (sample_env jun10_10am) c1_plain_text)))
         + eh * 3600 + em * 60).
Proof.
  assert (H : parse_event (sample_env jun10_10am) c1_plain_text
    = Ok (Some (event_of (parse_event (sample_env jun10_10am) c1_plain_text))))
    by (vm_compute; reflexivity).
  split; [exact H|].
  exact (C1_end_time_after_start (sample_env jun10_10am) c1_plain_text _ H).
Defined.

(** ** C2: calendar name matching *)

(** C2 (as stated: a substring match is accepted when the requested name has
    at least 3 characters and 70% of the calendar name's length) fails:
    "Team Calendar" (13 characters) is a substring of "Team Calendars"
    (14 characters, 13/14 >= 70%), yet no calendar is returned. *)
Lemma C2_no_substring_step :
  (3 <=? Z.of_nat (length c2_request)) = true /\
  (7 * Z.of_nat (length (cal_name c2_calendar)) <=? 10 * Z.of_nat (length c2_request))
    = true /\
  containsb (py_strip (py_lower c2_request)) (py_lower (cal_name c2_calendar)) = true /\
  find_matching_calendar c2_request [c2_calendar] = None.
Proof. repeat split; vm_compute; reflexivity. Qed.

(** C2 (amended): [find_matching_calendar] returns the first calendar whose
    name equals the requested name after lowercasing and trimming; if there
    is none, the first whose name equals it after also collapsing internal
    white space; otherwise no calendar.  There is no substring step, so a
    result always matches in one of the two exact senses. *)
Theorem C2_calendar_matching (requested : str) (cals : list Calendar) :
  match find_matching_calendar requested cals with
  | Some c =>
      (name_matches_trimmed requested c = true /\
       exists pre post, cals = pre ++ c :: post /\
         Forall (fun c' => name_matches_trimmed requested c' = false) pre)
      \/
      (Forall (fun c' => name_matches_trimmed requested c' = false) cals /\
       name_matches_collapsed requested c = true /\
       exists pre post, cals = pre ++ c :: post /\
         Forall (fun c' => name_matches_collapsed requested c' = false) pre)
  | None =>
      Forall (fun c => name_matches_trimmed requested c = false /\
                       name_matches_collapsed requested c = false) cals
  end.
Proof.
  unfold find_matching_calendar. cbv zeta.
  change (fun c => str_eqb (py_strip (py_lower (cal_name c)))
                           (py_strip (py_lower requested)))
    with (name_matches_trimmed requested).
  change (fun c => str_eqb (join_space (py_split (py_lower (cal_name c))))
                           (join_space (py_split (py_strip (py_lower requested)))))
    with (name_matches_collapsed requested).
  destruct (find (name_matches_trimmed requested) cals) as [c|] eqn:E1.
  - left. exact (find_first _ _ _ E1).
  - pose proof (find_none_all _ _ E1) as H1.
    destruct (find (name_matches_collapsed requested) cals) as [c|] eqn:E2.
    + right. split; [exact H1|]. exact (find_first _ _ _ E2).
    + pose proof (find_none_all _ _ E2) as H2.
      clear E1 E2. induction cals as [|a l IH]; [constructor|].
      inversion H1; inversion H2; subst. constructor; auto.
Qed.

(** ** C3: "Meeting with John tomorrow at 2pm" *)




(** ** C4: precedence of the script-specific datetime extractor *)




(** ** C5: idempotence of [preprocess_text] *)

(** C5: [preprocess_text] is not idempotent.  The abbreviation "tom" is
    replaced inside any word, including in its own expansion "tomorrow":
    "tom" normalises to "tomorrow", which normalises again to
    "tomorroworrow" (and so does every text containing "tomorrow"). *)
Theorem C5_preprocess_not_idempotent :
  preprocess_text (u "tom") = u "tomorrow" /\
  preprocess_text (preprocess_text (u "tom")) = u "tomorroworrow" /\
  preprocess_text (preprocess_text (u "tom")) <> preprocess_text (u "tom").
Proof.
  assert (H1 : preprocess_text (u "tom") = u "tomorrow") by (vm_compute; reflexivity).
  assert (H2 : preprocess_text (u "tomorrow") = u "tomorroworrow")
    by (vm_compute; reflexivity).
  rewrite H1, H2. split; [reflexivity|]. split; [reflexivity|].
  vm_compute. discriminate.
Qed.

(** ** C6: exceptions in [try_nlp_event_creation] *)

(** C6: the [except] handler of [try_nlp_event_creation] refers to the
    unbound name [phone_number], so every failure inside the [try] block
    leaves the function as a [NameError].  For a connected user and
    "meeting tomorrow at 13pm", [parse_event] raises [ValueError] (the
    hour 13pm becomes 25 for [datetime.replace]); [try_nlp_event_creation]
    and then [process_message] raise [NameError]. *)
Theorem C6_handler_raises_name_error :
  (forall svc msg usr e usr',
     google_access_token usr = true ->
     try_nlp_body svc msg usr = (Raise e, usr') ->
     try_nlp_event_creation svc msg usr = (Raise NameError, usr')) /\
  parse_event (sample_env jun10_10am) c6_text = Raise ValueError /\
  try_nlp_event_creation (sample_services jun10_10am [c2_owner_calendar]) c6_text sample_user
    = (Raise NameError, sample_user) /\
  process_message (sample_services jun10_10am [c2_owner_calendar]) c6_text sample_user
    = (Raise NameError, sample_user).
Proof.
  split.
  - intros svc msg usr e usr' Ht Hb. unfold try_nlp_event_creation.
    rewrite Ht. cbn [negb]. rewrite Hb. reflexivity.
  - repeat split; vm_compute; reflexivity.
Qed.

(** ** C7: dispatch on the number of writable calendars and the confidence *)

(** C7: for a connected user whose message parses to an event [ev] and
    names no calendar, [try_nlp_event_creation] asks the user to choose a
    calendar (step [choose_calendar]) whenever more than one writable
    calendar exists, whatever the confidence; otherwise a confidence of at
    least 80 creates the event automatically, 50-79 and 30-49 ask for a
    confirmation (step [confirm_event]), and below 30 it returns [None],
    which [process_message] answers with the "nlp_failed" template. *)
Theorem C7_dispatch (svc : Services) (msg : str) (usr : User) (ev : Event)
    (cals : list Calendar) :
  google_access_token usr = true ->
  parse_event (svc_env svc (timezone usr)) msg = Ok (Some ev) ->
  get_user_calendars svc usr = Ok cals ->
  extract_calendar_name msg = None ->
  ((1 < length (writable_calendars_of cals))%nat ->
   try_nlp_event_creation svc msg usr
   = (Ok (Some (CalendarSelectionPrompt ev (writable_calendars_of cals))),
      set_conversation_state (utcnow svc) usr ChooseCalendar
        (Some (calendars_payload ev (writable_calendars_of cals))))) /\
  ((length (writable_calendars_of cals) <= 1)%nat -> 80 <= ev_confidence ev ->
   try_nlp_event_creation svc msg usr
   = (match create_event_automatically svc usr ev (writable_calendars_of cals) with
      | Ok r => Ok (Some r)
      | Raise _ => Raise NameError
      end, usr)) /\
  ((length (writable_calendars_of cals) <= 1)%nat -> 50 <= ev_confidence ev < 80 ->
   try_nlp_event_creation svc msg usr
   = (Ok (Some (ConfirmPrompt ev)),
      set_conversation_state (utcnow svc) usr ConfirmEvent (Some (event_payload ev)))) /\
  ((length (writable_calendars_of cals) <= 1)%nat -> 30 <= ev_confidence ev < 50 ->
   try_nlp_event_creation svc msg usr
   = (Ok (Some (UnderstandPrompt ev)),
      set_conversation_state (utcnow svc) usr ConfirmEvent (Some (event_payload ev)))) /\
  ((length (writable_calendars_of cals) <= 1)%nat -> ev_confidence ev < 30 ->
   try_nlp_event_creation svc msg usr = (Ok None, usr) /\
   (in_strs (py_strip (py_lower msg)) (map u ["עבור לאנגלית"; "switch to english"]%string)
      = false ->
    in_strs (py_strip (py_lower msg)) (map u ["עבור לעברית"; "switch to hebrew"]%string)
      = false ->
    in_strs (py_strip (py_lower msg)) exact_commands = false ->
    should_try_nlp msg = true ->
    command_processing svc msg (py_strip (py_lower msg)) usr
    = (Ok (Template (language usr) "nlp_failed"), usr))).
Proof.
  intros Ht Hp Hc Hn.
  assert (Hopen : try_nlp_event_creation svc msg usr =
    (if Nat.ltb 1 (length (writable_calendars_of cals)) then
       (Ok (Some (CalendarSelectionPrompt ev (writable_calendars_of cals))),
        set_conversation_state (utcnow svc) usr ChooseCalendar
          (Some (calendars_payload ev (writable_calendars_of cals))))
     else if 80 <=? ev_confidence ev then
       (match create_event_automatically svc usr ev (writable_calendars_of cals) with
        | Ok r => Ok (Some r)
        | Raise _ => Raise NameError
        end, usr)
     else if 50 <=? ev_confidence ev then
       (Ok (Some (ConfirmPrompt ev)),
        set_conversation_state (utcnow svc) usr ConfirmEvent (Some (event_payload ev)))
     else if 30 <=? ev_confidence ev then
       (Ok (Some (UnderstandPrompt ev)),
        set_conversation_state (utcnow svc) usr ConfirmEvent (Some (event_payload ev)))
     else (Ok None, usr))).
  { unfold try_nlp_event_creation. rewrite Ht. cbn [negb].
    unfold try_nlp_body, st_bind, st_get, st_lift, st_ret, set_state, st_modify.
    cbv beta iota zeta. rewrite Hp. cbv beta iota zeta. rewrite Hc.
    cbv beta iota zeta. rewrite Hn. cbv beta iota zeta.
    destruct (Nat.ltb 1 (length (writable_calendars_of cals))); [reflexivity|].
    destruct (80 <=? ev_confidence ev);
      [destruct (create_event_automatically svc usr ev (writable_calendars_of cals));
       reflexivity|].
    destruct (50 <=? ev_confidence ev); [reflexivity|].
    destruct (30 <=? ev_confidence ev); reflexivity. }
  rewrite Hopen.
  assert (Hlow : (length (writable_calendars_of cals) <= 1)%nat -> ev_confidence ev < 30 ->
                 try_nlp_event_creation svc msg usr = (Ok None, usr)).
  { intros H H0. rewrite Hopen.
    rewrite (proj2 (Nat.ltb_ge _ _) H), (proj2 (Z.leb_gt 80 (ev_confidence ev)) ltac:(lia)),
      (proj2 (Z.leb_gt 50 (ev_confidence ev)) ltac:(lia)), (proj2 (Z.leb_gt _ _) H0).
    reflexivity. }
  repeat split; intros.
  - rewrite (proj2 (Nat.ltb_lt _ _) H). reflexivity.
  - rewrite (proj2 (Nat.ltb_ge _ _) H), (proj2 (Z.leb_le _ _) H0). reflexivity.
  - rewrite (proj2 (Nat.ltb_ge _ _) H), (proj2 (Z.leb_gt _ _) (proj2 H0)),
      (proj2 (Z.leb_le _ _) (proj1 H0)). reflexivity.
  - rewrite (proj2 (Nat.ltb_ge _ _) H),
      (proj2 (Z.leb_gt 80 (ev_confidence ev)) ltac:(lia)),
      (proj2 (Z.leb_gt _ _) (proj2 H0)), (proj2 (Z.leb_le _ _) (proj1 H0)). reflexivity.
  - rewrite <- Hopen. exact (Hlow H H0).
  - specialize (Hlow H H0).
    unfold command_processing, st_bind, st_get, st_ret.
    cbv beta iota zeta. rewrite H1, H2, H3, Ht, H4. cbn [negb].
    rewrite Hlow. reflexivity.
Qed.

Lemma C7_dispatch_witness :
  (google_access_token sample_user = true /\
   parse_event (svc_env c7_services (timezone sample_user)) c3_text = Ok (Some c7_event) /\
   get_user_calendars c7_services sample_user = Ok [c2_owner_calendar] /\
   extract_calendar_name c3_text = None) /\
  ((1 < length (writable_calendars_of [c2_owner_calendar]))%nat ->
   try_nlp_event_creation c7_services c3_text sample_user
   = (Ok (Some (CalendarSelectionPrompt c7_event (writable_calendars_of [c2_owner_calendar]))),
      set_conversation_state (utcnow c7_services) sample_user ChooseCalendar
        (Some (calendars_payload c7_event (writable_calendars_of [c2_owner_calendar]))))) /\
  ((length (writable_calendars_of [c2_owner_calendar]) <= 1)%nat -> 80 <= ev_confidence c7_event ->
   try_nlp_event_creation c7_services c3_text sample_user
   = (match create_event_automatically c7_services sample_user c7_event (writable_calendars_of [c2_owner_calendar]) with
      | Ok r => Ok (Some r)
      | Raise _ => Raise NameError
      end, sample_user)) /\
  ((length (writable_calendars_of [c2_owner_calendar]) <= 1)%nat -> 50 <= ev_confidence c7_event < 80 ->
   try_nlp_event_creation c7_services c3_text sample_user
   = (Ok (Some (ConfirmPrompt c7_event)),
      set_conversation_state (utcnow c7_services) sample_user ConfirmEvent (Some (event_payload c7_event)))) /\
  ((length (writable_calendars_of [c2_owner_calendar]) <= 1)%nat -> 30 <= ev_confidence c7_event < 50 ->
   try_nlp_event_creation c7_services c3_text sample_user
   = (Ok (Some (UnderstandPrompt c7_event)),
      set_conversation_state (utcnow c7_services) sample_user ConfirmEvent (Some (event_payload c7_event)))) /\
  ((length (writable_calendars_of [c2_owner_calendar]) <= 1)%nat -> ev_confidence c7_event < 30 ->
   try_nlp_event_creation c7_services c3_text sample_user = (Ok None, sample_user) /\
   (in_strs (py_strip (py_lower c3_text)) (map u ["עבור לאנגלית"; "switch to english"]%string)
      = false ->
    in_strs (py_strip (py_lower c3_text)) (map u ["עבור לעברית"; "switch to hebrew"]%string)
      = false ->
    in_strs (py_strip (py_lower c3_text)) exact_commands = false ->
    should_try_nlp c3_text = true ->
    command_processing c7_services c3_text (py_strip (py_lower c3_text)) sample_user
    = (Ok (Template (language sample_user) "nlp_failed"), sample_user))).
Proof.
  assert (H1 : google_access_token sample_user = true) by reflexivity.
  assert (H2 : parse_event (svc_env c7_services (timezone sample_user)) c3_text = Ok (Some c7_event)) by (vm_compute; reflexivity).
  assert (H3 : get_user_calendars c7_services sample_user = Ok [c2_owner_calendar]) by reflexivity.
  assert (H4 : extract_calendar_name c3_text = None) by (vm_compute; reflexivity).
  split; [split; [exact H1 | split; [exact H2 | split; [exact H3 | exact H4]]]|].
  exact (C7_dispatch c7_services c3_text sample_user c7_event [c2_owner_calendar]
           H1 H2 H3 H4).
Defined.

(** ** C8: expired conversation states *)

(** C8: [process_message] only skips an expired conversation; unlike the
    expiry branch of [handle_conversation_flow] (which it never reaches
    for an expired state) it does not clear it.  A user left in
    [confirm_event] 45 minutes ago who sends "yes" gets the
    "unknown_command" reply and keeps the stale state; a later "cancel"
    then reports that a conversation was cancelled. *)
Theorem C8_expired_state_kept :
  is_conversation_expired (utcnow c7_services) (confirm_user 2700) = true /\
  process_message c7_services (u "yes") (confirm_user 2700)
    = (Ok (Template En "unknown_command"), confirm_user 2700) /\
  conversation_step (confirm_user 2700) = Some ConfirmEvent /\
  process_message c7_services (u "cancel") (confirm_user 2700)
    = (Ok (Template En "cancel_with_conversation"),
       clear_conversation_state (confirm_user 2700)) /\
  handle_conversation_flow c7_services (u "yes") (confirm_user 2700)
    = (Ok None, clear_conversation_state (confirm_user 2700)).
Proof. repeat split; vm_compute; reflexivity. Qed.

(** ** C9: the word-count gate *)

(** C9: a message of fewer than three white-space separated words is
    rejected by [should_try_nlp]; when it is neither a language switch nor
    an exact command, [process_message]'s command processing answers
    "unknown_command" without calling the parser and leaves the user row
    unchanged. *)
Theorem C9_short_message_rejected (msg : str) :
  (length (py_split msg) < 3)%nat ->
  should_try_nlp msg = false /\
  (forall svc usr,
     in_strs (py_strip (py_lower msg)) (map u ["עבור לאנגלית"; "switch to english"]%string)
       = false ->
     in_strs (py_strip (py_lower msg)) (map u ["עבור לעברית"; "switch to hebrew"]%string)
       = false ->
     in_strs (py_strip (py_lower msg)) exact_commands = false ->
     command_processing svc msg (py_strip (py_lower msg)) usr
     = (Ok (Template (language usr) "unknown_command"), usr)).
Proof.
  intros Hlen.
  assert (Hs : should_try_nlp msg = false).
  { unfold should_try_nlp. rewrite (proj2 (Nat.ltb_lt _ _) Hlen). reflexivity. }
  split; [exact Hs|].
  intros svc usr H1 H2 H3.
  unfold command_processing, st_bind, st_get, st_ret.
  cbv beta iota zeta. rewrite H1, H2, H3, Hs.
  destruct (google_access_token usr); reflexivity.
Qed.

Lemma C9_short_message_rejected_witness :
  (length (py_split (u "lunch")) < 3)%nat /\
  should_try_nlp (u "lunch") = false /\
  (forall svc usr,
     in_strs (py_strip (py_lower (u "lunch")))
       (map u ["עבור לאנגלית"; "switch to english"]%string) = false ->
     in_strs (py_strip (py_lower (u "lunch")))
       (map u ["עבור לעברית"; "switch to hebrew"]%string) = false ->
     in_strs (py_strip (py_lower (u "lunch"))) exact_commands = false ->
     command_processing svc (u "lunch") (py_strip (py_lower (u "lunch"))) usr
     = (Ok (Template (language usr) "unknown_command"), usr)).
Proof.
  assert (H : (length (py_split (u "lunch")) < 3)%nat) by (vm_compute; lia).
  split; [exact H|].
  exact (C9_short_message_rejected (u "lunch") H).
Defined.

(** ** C10: re-prompt in [confirm_event] *)

(** C10: in [confirm_event] with a stashed parsed event, a reply that is
    none of the yes, no or edit words (after lowercasing and trimming) gets
    the re-prompt for that event; the user row is left as it was apart
    from the language detected from the message: step, payload and update
    time are unchanged. *)
Theorem C10_reprompt_keeps_state (svc : Services) (msg : str) (usr : User)
    (pl : Payload) (ev : Event) :
  conversation_step usr = Some ConfirmEvent ->
  conversation_state usr = Some pl ->
  pl_parsed_event pl = Some ev ->
  is_conversation_expired (utcnow svc) usr = false ->
  in_strs (py_strip (py_lower msg)) yes_words = false ->
  in_strs (py_strip (py_lower msg)) no_words = false ->
  in_strs (py_strip (py_lower msg)) edit_words = false ->
  exists usr',
    process_message svc msg usr = (Ok (ConfirmReprompt (lang_of (language usr')) ev), usr') /\
    usr' = match msg with
           | [] => usr
           | _ => with_language usr (detect_user_language msg)
           end /\
    conversation_step usr' = Some ConfirmEvent /\
    conversation_state usr' = Some pl /\
    conversation_updated usr' = conversation_updated usr.
Proof.
  intros Hstep Hstate Hev Hexp Hy Hn He.
  set (L := match msg with
            | [] => usr
            | _ => with_language usr (detect_user_language msg)
            end).
  assert (HL : (match msg with
                | [] => st_ret tt
                | _ => st_modify (fun x => with_language x (detect_user_language msg))
                end) usr = (Ok tt, L)) by (subst L; destruct msg; reflexivity).
  assert (HLstep : conversation_step L = Some ConfirmEvent)
    by (subst L; destruct msg; exact Hstep).
  assert (HLstate : conversation_state L = Some pl) by (subst L; destruct msg; exact Hstate).
  assert (HLupd : conversation_updated L = conversation_updated usr)
    by (subst L; destruct msg; reflexivity).
  assert (HLexp : is_conversation_expired (utcnow svc) L = false).
  { rewrite <- Hexp. unfold is_conversation_expired, is_conversation_expired_t.
    rewrite HLupd. reflexivity. }
  exists L. split; [|repeat split; assumption].
  unfold process_message. unfold st_bind at 1. rewrite HL. cbv beta iota zeta.
  unfold st_bind, st_get, st_ret. cbv beta iota zeta.
  rewrite HLstep, HLexp. cbn [step_truthy negb andb].
  unfold handle_conversation_flow, handle_event_confirmation, st_bind, st_get, st_ret.
  cbv beta iota zeta.
  rewrite HLexp, HLstep, HLstate, Hy, Hn, He, Hev. reflexivity.
Qed.

Lemma C10_reprompt_keeps_state_witness :
  (conversation_step (confirm_user 600) = Some ConfirmEvent /\
   conversation_state (confirm_user 600) = Some (event_payload c7_event) /\
   pl_parsed_event (event_payload c7_event) = Some c7_event /\
   is_conversation_expired (utcnow c7_services) (confirm_user 600) = false /\
   in_strs (py_strip (py_lower (u "maybe"))) yes_words = false /\
   in_strs (py_strip (py_lower (u "maybe"))) no_words = false /\
   in_strs (py_strip (py_lower (u "maybe"))) edit_words = false) /\
  exists usr',
    process_message c7_services (u "maybe") (confirm_user 600) = (Ok (ConfirmReprompt (lang_of (language usr')) c7_event), usr') /\
    usr' = match (u "maybe") with
           | [] => (confirm_user 600)
           | _ => with_language (confirm_user 600) (detect_user_language (u "maybe"))
           end /\
    conversation_step usr' = Some ConfirmEvent /\
    conversation_state usr' = Some (event_payload c7_event) /\
    conversation_updated usr' = conversation_updated (confirm_user 600).
Proof.
  assert (H1 : conversation_step (confirm_user 600) = Some ConfirmEvent) by (vm_compute; reflexivity).
  assert (H2 : conversation_state (confirm_user 600) = Some (event_payload c7_event)) by (vm_compute; reflexivity).
  assert (H3 : pl_parsed_event (event_payload c7_event) = Some c7_event) by (vm_compute; reflexivity).
  assert (H4 : is_conversation_expired (utcnow c7_services) (confirm_user 600) = false) by (vm_compute; reflexivity).
  assert (H5 : in_strs (py_strip (py_lower (u "maybe"))) yes_words = false) by (vm_compute; reflexivity).
  assert (H6 : in_strs (py_strip (py_lower (u "maybe"))) no_words = false) by (vm_compute; reflexivity).
  assert (H7 : in_strs (py_strip (py_lower (u "maybe"))) edit_words = false) by (vm_compute; reflexivity).
  split; [split; [exact H1 | split; [exact H2 | split; [exact H3 | split; [exact H4 | split; [exact H5 | split; [exact H6 | exact H7]]]]]]|].
  exact (C10_reprompt_keeps_state c7_services (u "maybe") (confirm_user 600)
           (event_payload c7_event) c7_event H1 H2 H3 H4 H5 H6 H7).
Defined.

(* ------------------------------------------------------------------ *)
(** * Further properties of the code *)

(** ** Strings: [lower], [strip], [split] and [join] *)

Lemma upper_not_space c : (65 <= c <= 90)%N -> is_space c = false.
Proof.
  intro Hc. apply Bool.not_true_is_false. unfold is_space. intro H.
  repeat rewrite orb_true_iff in H. repeat rewrite andb_true_iff in H.
  rewrite ?N.leb_le, ?N.eqb_eq in H. lia.
Qed.

Lemma lower_char_idem c : lower_char (lower_char c) = lower_char c.
Proof.
  unfold lower_char. destruct ((65 <=? c) && (c <=? 90))%N eqn:E.
  - rewrite andb_true_iff, !N.leb_le in E.
    replace ((65 <=? c + 32) && (c + 32 <=? 90))%N with false; [reflexivity|].
    symmetry. apply andb_false_iff. right. apply N.leb_gt. lia.
  - rewrite E. reflexivity.
Qed.

Lemma lower_char_space c : is_space c = true -> lower_char c = c.
Proof.
  intro Hs. unfold lower_char. destruct ((65 <=? c) && (c <=? 90))%N eqn:E; [|reflexivity].
  rewrite andb_true_iff, !N.leb_le in E. rewrite upper_not_space in Hs by lia.
  discriminate.
Qed.

Lemma is_space_lower c : is_space (lower_char c) = is_space c.
Proof.
  unfold lower_char. destruct ((65 <=? c) && (c <=? 90))%N eqn:E; [|reflexivity].
  rewrite andb_true_iff, !N.leb_le in E.
  rewrite (upper_not_space c) by lia.
  apply Bool.not_true_is_false. unfold is_space. intro H.
  repeat rewrite orb_true_iff in H. repeat rewrite andb_true_iff in H.
  rewrite ?N.leb_le, ?N.eqb_eq in H. lia.
Qed.

Lemma py_lower_idem s : py_lower (py_lower s) = py_lower s.
Proof.
  unfold py_lower. rewrite map_map. apply map_ext. apply lower_char_idem.
Qed.

Lemma py_lower_spaces sp : forallb is_space sp = true -> py_lower sp = sp.
Proof.
  induction sp as [|c r IH]; cbn [forallb]; [reflexivity|].
  rewrite andb_true_iff. intros [Hc Hr]. cbn [py_lower map].
  rewrite lower_char_space by exact Hc. f_equal. exact (IH Hr).
Qed.

Lemma forallb_rev {A} (f : A -> bool) (l : list A) : forallb f (rev l) = forallb f l.
Proof.
  induction l as [|a l IH]; cbn [rev forallb]; [reflexivity|].
  rewrite forallb_app, IH. cbn [forallb]. rewrite andb_true_r, andb_comm. reflexivity.
Qed.

Lemma drop_space_lower s : drop_space (py_lower s) = py_lower (drop_space s).
Proof.
  induction s as [|c r IH]; [reflexivity|].
  cbn [py_lower map drop_space]. rewrite is_space_lower.
  destruct (is_space c); [exact IH|reflexivity].
Qed.

Lemma py_strip_lower s : py_strip (py_lower s) = py_lower (py_strip s).
Proof.
  unfold py_strip. rewrite drop_space_lower. unfold py_lower.
  rewrite <- map_rev, drop_space_lower. unfold py_lower. rewrite map_rev. reflexivity.
Qed.

Lemma drop_space_app a b :
  drop_space (a ++ b) = if forallb is_space a then drop_space b else drop_space a ++ b.
Proof.
  induction a as [|c r IH]; cbn [app drop_space forallb]; [reflexivity|].
  destruct (is_space c); cbn [andb]; [exact IH|reflexivity].
Qed.

Lemma drop_space_all a : forallb is_space a = true -> drop_space a = [].
Proof.
  intro H. rewrite <- (app_nil_r a), drop_space_app, H. reflexivity.
Qed.

Lemma drop_space_idem s : drop_space (drop_space s) = drop_space s.
Proof.
  induction s as [|c r IH]; cbn [drop_space]; [reflexivity|].
  destruct (is_space c) eqn:E; [exact IH|]. cbn [drop_space]. rewrite E. reflexivity.
Qed.

Lemma drop_space_split s : exists p, s = p ++ drop_space s /\ forallb is_space p = true.
Proof.
  induction s as [|c r IH]; cbn [drop_space]; [exists []; auto|].
  destruct (is_space c) eqn:E.
  - destruct IH as [p [Hp Hs]]. exists (c :: p). cbn [app forallb].
    rewrite E, Hs. split; [f_equal; exact Hp|reflexivity].
  - exists []. auto.
Qed.

(** [strip()] is idempotent. *)
Lemma py_strip_idem s : py_strip (py_strip s) = py_strip s.
Proof.
  unfold py_strip at 2 3.
  set (s1 := drop_space s). set (X := drop_space (rev s1)).
  assert (HX : drop_space X = X) by (unfold X; apply drop_space_idem).
  assert (Hs1 : drop_space s1 = s1) by (unfold s1; apply drop_space_idem).
  destruct (drop_space_split (rev s1)) as [P [HP HPs]]. fold X in HP.
  assert (Hrev : s1 = rev X ++ rev P).
  { rewrite <- rev_app_distr, <- HP, rev_involutive. reflexivity. }
  assert (HrX : drop_space (rev X) = rev X).
  { rewrite Hrev, drop_space_app in Hs1.
    destruct (forallb is_space (rev X)) eqn:Ea.
    - rewrite forallb_rev in Ea. rewrite (drop_space_all X Ea) in HX.
      rewrite <- HX. reflexivity.
    - apply app_inv_tail in Hs1. exact Hs1. }
  unfold py_strip. rewrite HrX, rev_involutive, HX. reflexivity.
Qed.

Lemma py_strip_pad sp1 s sp2 :
  forallb is_space sp1 = true -> forallb is_space sp2 = true ->
  py_strip (sp1 ++ s ++ sp2) = py_strip s.
Proof.
  intros H1 H2. unfold py_strip.
  rewrite drop_space_app, H1, drop_space_app.
  destruct (forallb is_space s) eqn:Es.
  - rewrite (drop_space_all sp2 H2), (drop_space_all s Es). reflexivity.
  - rewrite rev_app_distr, drop_space_app, forallb_rev, H2. reflexivity.
Qed.

Lemma split_aux_words s cur :
  forallb nonspace cur = true ->
  Forall (fun w => w <> [] /\ forallb nonspace w = true) (split_aux s cur).
Proof.
  revert cur. induction s as [|c r IH]; intros cur Hcur; cbn [split_aux].
  - destruct cur as [|d cur']; [constructor|].
    constructor; [|constructor]. split.
    + intro H. apply (f_equal (@length N)) in H. rewrite length_rev in H. discriminate.
    + rewrite forallb_rev. exact Hcur.
  - destruct (is_space c) eqn:E.
    + destruct cur as [|d cur']; [apply IH; reflexivity|].
      constructor; [|apply IH; reflexivity]. split.
      * intro H. apply (f_equal (@length N)) in H. rewrite length_rev in H. discriminate.
      * rewrite forallb_rev. exact Hcur.
    + apply IH. cbn [forallb]. unfold nonspace at 1. rewrite E, Hcur. reflexivity.
Qed.

Lemma split_aux_nospace w r cur :
  forallb nonspace w = true -> split_aux (w ++ r) cur = split_aux r (rev w ++ cur).
Proof.
  revert cur. induction w as [|c w IH]; intros cur Hw; [reflexivity|].
  cbn [forallb] in Hw. apply andb_true_iff in Hw. destruct Hw as [Hc Hw].
  unfold nonspace in Hc. apply negb_true_iff in Hc.
  cbn [app split_aux]. rewrite Hc, IH by exact Hw. cbn [rev].
  rewrite <- app_assoc. reflexivity.
Qed.

(** Splitting a single-space join of non-empty words without white space
    gives the words back. *)
Lemma split_join ws :
  Forall (fun w => w <> [] /\ forallb nonspace w = true) ws -> py_split (join_space ws) = ws.
Proof.
  induction ws as [|w ws IH]; intro H; [reflexivity|].
  inversion H as [|? ? [Hne Hw] Hr]; subst.
  destruct ws as [|w2 ws'].
  - cbn [join_space]. unfold py_split. rewrite <- (app_nil_r w) at 1.
    rewrite split_aux_nospace by exact Hw. rewrite app_nil_r. cbn [split_aux].
    destruct (rev w) eqn:Er.
    + apply (f_equal (@rev N)) in Er. rewrite rev_involutive in Er. contradiction.
    + rewrite <- Er, rev_involutive. reflexivity.
  - change (join_space (w :: w2 :: ws')) with (w ++ [32%N] ++ join_space (w2 :: ws')).
    unfold py_split. rewrite split_aux_nospace by exact Hw. rewrite app_nil_r.
    cbn [app split_aux]. replace (is_space 32) with true by reflexivity.
    destruct (rev w) eqn:Er.
    + apply (f_equal (@rev N)) in Er. rewrite rev_involutive in Er. contradiction.
    + rewrite <- Er, rev_involutive. f_equal. exact (IH Hr).
Qed.

Lemma split_aux_chars (P : N -> Prop) s cur :
  Forall P s -> Forall P cur -> Forall (Forall P) (split_aux s cur).
Proof.
  revert cur. induction s as [|c r IH]; intros cur Hs Hcur; cbn [split_aux].
  - destruct cur; [constructor|]. constructor; [|constructor].
    apply Forall_rev. exact Hcur.
  - inversion Hs; subst. destruct (is_space c).
    + destruct cur as [|d cur']; [apply IH; auto|].
      constructor; [apply Forall_rev; exact Hcur|apply IH; auto].
    + apply IH; auto.
Qed.

Lemma join_space_chars (P : N -> Prop) ws :
  P 32%N -> Forall (Forall P) ws -> Forall P (join_space ws).
Proof.
  intros H32. induction ws as [|w ws IH]; intro H; [constructor|].
  inversion H; subst. destruct ws as [|w2 ws'].
  - assumption.
  - change (join_space (w :: w2 :: ws')) with (w ++ [32%N] ++ join_space (w2 :: ws')).
    apply Forall_app. split; [assumption|]. apply Forall_app. split; auto.
Qed.

Lemma replace_aux_chars (P : N -> Prop) n old new s :
  Forall P new -> Forall P s -> Forall P (replace_aux n old new s).
Proof.
  intro Hn. revert s. induction n as [|n IH]; intros s Hs; cbn [replace_aux]; [exact Hs|].
  destruct s as [|c r]; [constructor|].
  destruct (prefixb old (c :: r)).
  - apply Forall_app. split; [exact Hn|]. apply IH.
    clear IH. revert Hs. generalize (c :: r). generalize (length old).
    induction n0 as [|k IHk]; intros l Hl; [exact Hl|].
    destruct l; [constructor|]. inversion Hl; subst. apply IHk. assumption.
  - inversion Hs; subst. constructor; [assumption|]. apply IH. assumption.
Qed.

Lemma lower_fixed s : Forall (fun c => lower_char c = c) s -> py_lower s = s.
Proof.
  induction s as [|c r IH]; intro H; [reflexivity|].
  inversion H; subst. cbn [py_lower map]. f_equal; [assumption|]. apply IH. assumption.
Qed.

(** ** [extract_calendar_name], [find_matching_calendar], [extract_location] *)

(** X1: a calendar name found in a message is stripped of surrounding white
    space and has at least two characters. *)
Theorem extract_calendar_name_stripped (text name : str) :
  extract_calendar_name text = Some name ->
  (2 <= length name)%nat /\ py_strip name = name.
Proof.
  unfold extract_calendar_name. intro H.
  destruct (first_some_spec _ _ _ H) as (r & _ & Hr). clear H.
  unfold calendar_try in Hr.
  destruct (re_search true r text) as [m|]; [|discriminate].
  injection Hr as Hr.
  destruct (group text m 1) as [g|]; [|discriminate]. cbv zeta in Hr.
  destruct (length (py_strip g)) as [|[|k]] eqn:E; try discriminate.
  injection Hr as <-. split; [rewrite E; lia|apply py_strip_idem].
Qed.

Lemma extract_calendar_name_stripped_witness :
  extract_calendar_name (u "Meeting tomorrow at 3pm in calendar Work") = Some (u "Work")
  /\ (2 <= length (u "Work"))%nat /\ py_strip (u "Work") = u "Work".
Proof.
  assert (H : extract_calendar_name (u "Meeting tomorrow at 3pm in calendar Work")
              = Some (u "Work")) by (vm_compute; reflexivity).
  split; [exact H|]. exact (extract_calendar_name_stripped _ _ H).
Defined.

(** X2: calendar matching ignores the case of the requested name and white
    space around it. *)
Theorem find_matching_calendar_case_padding (r1 r2 sp1 sp2 : str) (cals : list Calendar) :
  py_lower r1 = py_lower r2 ->
  forallb is_space sp1 = true -> forallb is_space sp2 = true ->
  find_matching_calendar (sp1 ++ r1 ++ sp2) cals = find_matching_calendar r2 cals.
Proof.
  intros Hl H1 H2. unfold find_matching_calendar.
  assert (E : py_strip (py_lower (sp1 ++ r1 ++ sp2)) = py_strip (py_lower r2)).
  { unfold py_lower at 1. rewrite !map_app. fold (py_lower sp1) (py_lower r1) (py_lower sp2).
    rewrite (py_lower_spaces sp1 H1), (py_lower_spaces sp2 H2), Hl.
    apply py_strip_pad; assumption. }
  rewrite E. reflexivity.
Qed.

Lemma find_matching_calendar_case_padding_witness :
  (py_lower (u "WORK") = py_lower (u "work")
   /\ forallb is_space (u " ") = true /\ forallb is_space (u "  ") = true)
  /\ find_matching_calendar (u " " ++ u "WORK" ++ u "  ") [c2_calendar]
     = find_matching_calendar (u "work") [c2_calendar].
Proof.
  assert (H1 : py_lower (u "WORK") = py_lower (u "work")) by (vm_compute; reflexivity).
  assert (H2 : forallb is_space (u " ") = true) by (vm_compute; reflexivity).
  assert (H3 : forallb is_space (u "  ") = true) by (vm_compute; reflexivity).
  split; [split; [exact H1|split; [exact H2|exact H3]]|].
  exact (find_matching_calendar_case_padding _ _ _ _ [c2_calendar] H1 H2 H3).
Defined.

(** X3: the location is either empty or has at least two characters and is
    not a time expression. *)
Theorem extract_location_shape (text : str) (doc : list (str * str)) :
  extract_location text doc = []
  \/ ((2 <= length (extract_location text doc))%nat
      /\ is_time_expression (extract_location text doc) = false).
Proof.
  unfold extract_location. cbv zeta.
  match goal with |- context [find ?f ?l] => destruct (find f l) as [l0|] eqn:E end.
  - right. apply find_some in E. destruct E as [_ E].
    apply andb_true_iff in E. destruct E as [E1 E2].
    apply Nat.ltb_lt in E1. apply negb_true_iff in E2. split; [lia|exact E2].
  - left. reflexivity.
Qed.

(** ** [preprocess_text] *)

(** X4: the output of [preprocess_text] is lower case and has its words
    separated by single spaces: lower-casing it, or splitting it and joining
    the words with one space, gives it back. *)
Theorem preprocess_text_normal (s : str) :
  py_lower (preprocess_text s) = preprocess_text s
  /\ join_space (py_split (preprocess_text s)) = preprocess_text s.
Proof.
  split.
  - apply lower_fixed. unfold preprocess_text. apply join_space_chars; [reflexivity|].
    apply split_aux_chars; [|constructor].
    assert (Hr : Forall (fun p : str * str => Forall (fun c => lower_char c = c) (snd p))
                        replacements).
    { assert (B : forallb (fun p : str * str => forallb (fun c => N.eqb (lower_char c) c) (snd p))
                          replacements = true) by (vm_compute; reflexivity).
      apply Forall_forall. intros p Hp. rewrite forallb_forall in B.
      specialize (B p Hp). rewrite forallb_forall in B.
      apply Forall_forall. intros c Hc. apply N.eqb_eq, B, Hc. }
    assert (Hs : Forall (fun c => lower_char c = c) (py_lower s)).
    { apply Forall_forall. intros c Hc. unfold py_lower in Hc.
      apply in_map_iff in Hc. destruct Hc as (x & <- & _). apply lower_char_idem. }
    revert Hr Hs. generalize (py_lower s). generalize replacements.
    intro l. induction l as [|p l IH]; intros x Hr Hx; [exact Hx|].
    inversion Hr; subst. cbn [fold_left]. apply IH; [assumption|].
    apply replace_aux_chars; assumption.
  - unfold preprocess_text. rewrite split_join; [reflexivity|].
    apply split_aux_words. reflexivity.
Qed.

(** ** [calculate_confidence] and the NLP dispatch *)

Lemma parse_event_confidence env text0 ev :
  parse_event env text0 = Ok (Some ev) ->
  exists t di loc txt, t <> [] /\ ev_confidence ev = calculate_confidence t (Some di) loc txt.
Proof.
  unfold parse_event. destruct (negb (nlp_loaded env)); [discriminate|]. cbv zeta.
  destruct (extract_datetime_enhanced env (preprocess_text text0)) as [d|e];
    cbn [res_bind]; [|discriminate].
  destruct (extract_duration (preprocess_text text0)) as [dur|e];
    cbn [res_bind]; [|discriminate].
  destruct (extract_title (preprocess_text text0) (ents env (preprocess_text text0)))
    as [[|c r]|]; try discriminate.
  destruct d as [di|]; [|discriminate].
  destruct (end_time_of (c :: r) di dur) as [en|e]; cbn [res_bind]; [|discriminate].
  intro H. injection H as <-. cbn [ev_confidence].
  eexists (c :: r), di, _, _. split; [discriminate|reflexivity].
Qed.

Lemma calculate_confidence_bounds t di loc txt :
  t <> [] -> 30 <= calculate_confidence t (Some di) loc txt <= 100.
Proof.
  intro Ht. destruct t as [|c r]; [contradiction|].
  unfold calculate_confidence, b2z. cbv beta iota zeta.
  destruct (dt_end di);
    repeat match goal with |- context [if ?b then _ else _] => destruct b end; lia.
Qed.

Lemma parse_event_confidence_bounds env text0 ev :
  parse_event env text0 = Ok (Some ev) -> 30 <= ev_confidence ev <= 100.
Proof.
  intro H. destruct (parse_event_confidence _ _ _ H) as (t & di & loc & txt & Ht & ->).
  apply calculate_confidence_bounds. exact Ht.
Qed.

(** X5: every event [parse_event] returns has a confidence between 30 and
    100. *)
Theorem parse_event_confidence_range (env : Env) (text0 : str) (ev : Event) :
  parse_event env text0 = Ok (Some ev) -> 30 <= ev_confidence ev <= 100.
Proof. apply parse_event_confidence_bounds. Qed.

Lemma parse_event_confidence_range_witness :
  parse_event (sample_env jun10_10am) c3_text = Ok (Some c7_event)
  /\ 30 <= ev_confidence c7_event <= 100.
Proof.
  assert (H : parse_event (sample_env jun10_10am) c3_text = Ok (Some c7_event))
    by (vm_compute; reflexivity).
  split; [exact H|]. exact (parse_event_confidence_range _ _ _ H).
Defined.

Ltac settle_branches H :=
  repeat (cbv beta iota zeta in H;
          match type of H with
          | context [if ?b then _ else _] => let E := fresh "E" in destruct b eqn:E
          | context [match ?x with Ok _ => _ | Raise _ => _ end] => destruct x
          | context [match ?x with Some _ => _ | None => _ end] => destruct x
          end);
  try discriminate.

(** X6: for a connected user, [try_nlp_event_creation] returns [None] only
    when the parser found no event: the low-confidence branch ([< 30])
    is never taken, and every other outcome is a reply or an exception. *)
Theorem try_nlp_none_only_without_event (svc : Services) (msg : str) (usr usr' : User) :
  google_access_token usr = true ->
  try_nlp_event_creation svc msg usr = (Ok None, usr') ->
  parse_event (svc_env svc (timezone usr)) msg = Ok None.
Proof.
  intros Htok H. unfold try_nlp_event_creation in H. rewrite Htok in H. cbn [negb] in H.
  unfold try_nlp_body, st_bind, st_get, st_lift, st_ret, set_state, st_modify in H.
  cbv beta in H.
  destruct (parse_event (svc_env svc (timezone usr)) msg) as [[ev|]|e] eqn:Ep;
    [|reflexivity|cbv iota in H; discriminate].
  exfalso. pose proof (parse_event_confidence_bounds _ _ _ Ep) as Hc.
  settle_branches H.
  match goal with E : (30 <=? ev_confidence ev) = false |- _ => apply Z.leb_gt in E end.
  lia.
Qed.

Lemma try_nlp_none_only_without_event_witness :
  google_access_token sample_user = true
  /\ try_nlp_event_creation (sample_services jun10_10am []) (u "hello there my friend")
       sample_user = (Ok None, sample_user)
  /\ parse_event (svc_env (sample_services jun10_10am []) (timezone sample_user))
       (u "hello there my friend") = Ok None.
Proof.
  assert (H1 : google_access_token sample_user = true) by reflexivity.
  assert (H2 : try_nlp_event_creation (sample_services jun10_10am []) (u "hello there my friend")
                 sample_user = (Ok None, sample_user)) by (vm_compute; reflexivity).
  split; [exact H1|split; [exact H2|]].
  exact (try_nlp_none_only_without_event _ _ _ _ H1 H2).
Defined.

Lemma find_matching_calendar_in r cals c :
  find_matching_calendar r cals = Some c -> In c cals.
Proof.
  unfold find_matching_calendar.
  match goal with |- context [find ?f cals] => destruct (find f cals) eqn:E end.
  - intro H. injection H as <-. apply find_some in E. apply E.
  - intro H. apply find_some in H. apply H.
Qed.

(** X7: [try_nlp_event_creation] only creates events in writable calendars:
    it behaves the same when creating an event in a calendar whose role is
    not ['owner'] or ['writer'] fails. *)
Theorem try_nlp_writable_only (svc : Services) (msg : str) (usr : User) :
  try_nlp_event_creation (services_writable_only svc) msg usr
  = try_nlp_event_creation svc msg usr.
Proof.
  unfold try_nlp_event_creation. destruct (negb (google_access_token usr)); [reflexivity|].
  assert (E : try_nlp_body (services_writable_only svc) msg usr = try_nlp_body svc msg usr).
  { unfold try_nlp_body, st_bind, st_get, st_lift, st_ret, set_state, st_modify.
    cbn [services_writable_only svc_env utcnow get_user_calendars
         create_event_in_specific_calendar create_event_automatically].
    destruct (parse_event (svc_env svc (timezone usr)) msg) as [[ev|]|e]; [|reflexivity..].
    destruct (get_user_calendars svc usr) as [cals|e]; [|reflexivity].
    destruct (extract_calendar_name msg) as [name|]; [|reflexivity].
    destruct (find_matching_calendar name (writable_calendars_of cals)) as [c|] eqn:Ef;
      [|reflexivity].
    apply find_matching_calendar_in in Ef. unfold writable_calendars_of in Ef.
    apply filter_In in Ef. destruct Ef as [_ ->]. reflexivity. }
  rewrite E. reflexivity.
Qed.

(** ** Helpers of the parser *)

(** X8: [convert_to_24h] maps the hours 1 to 12 with "am" onto 0 to 11 and
    with "pm" onto 12 to 23, the "pm" hour being the "am" hour plus 12;
    the suffix is compared case-insensitively. *)
Theorem convert_to_24h_range (h : Z) (am pm : str) :
  1 <= h <= 12 -> py_lower am = u "am" -> py_lower pm = u "pm" ->
  0 <= convert_to_24h h am <= 11 /\ 12 <= convert_to_24h h pm <= 23
  /\ convert_to_24h h pm = convert_to_24h h am + 12.
Proof.
  intros Hh Ha Hp. unfold convert_to_24h. rewrite Ha, Hp.
  replace (str_eqb (u "am") (u "am")) with true by reflexivity.
  replace (str_eqb (u "pm") (u "am")) with false by reflexivity.
  destruct (h =? 12) eqn:E; [apply Z.eqb_eq in E|apply Z.eqb_neq in E]; lia.
Qed.

Lemma convert_to_24h_range_witness :
  (1 <= 12 <= 12 /\ py_lower (u "AM") = u "am" /\ py_lower (u "Pm") = u "pm")
  /\ 0 <= convert_to_24h 12 (u "AM") <= 11 /\ 12 <= convert_to_24h 12 (u "Pm") <= 23
  /\ convert_to_24h 12 (u "Pm") = convert_to_24h 12 (u "AM") + 12.
Proof.
  assert (H1 : 1 <= 12 <= 12) by lia.
  assert (H2 : py_lower (u "AM") = u "am") by (vm_compute; reflexivity).
  assert (H3 : py_lower (u "Pm") = u "pm") by (vm_compute; reflexivity).
  split; [split; [exact H1|split; [exact H2|exact H3]]|].
  exact (convert_to_24h_range 12 _ _ H1 H2 H3).
Defined.

Lemma duration_try_minutes text pat d :
  duration_try text pat = Some (Some d) -> d mod 60 = 0.
Proof.
  destruct pat as [src r]. unfold duration_try.
  destruct (re_search true r text) as [m|]; [|discriminate].
  destruct (containsb (u "h") (u src)).
  - destruct (int_group text m 1) as [hs|]; [|discriminate].
    destruct (int_group_or0 text m 2) as [ms|]; [|discriminate].
    intro H; injection H as <-.
    replace (hs * 3600 + ms * 60) with ((hs * 60 + ms) * 60) by ring. apply Z_mod_mult.
  - destruct (int_group text m 1) as [num|]; [|discriminate].
    destruct (group text m 2) as [unit|]; [|discriminate].
    destruct (_ || _).
    + intro H; injection H as <-.
      replace (num * 3600) with ((num * 60) * 60) by ring. apply Z_mod_mult.
    + destruct (_ || _); [|discriminate].
      intro H; injection H as <-. apply Z_mod_mult.
Qed.

(** X9: a duration [extract_duration] returns is a non-negative whole
    number of minutes (it is in seconds) and shorter than 10^9 days, the
    limit past which [timedelta] raises [OverflowError]. *)
Theorem extract_duration_whole_minutes (text : str) (d : Z) :
  extract_duration text = Ok (Some d) ->
  0 <= d /\ d mod 60 = 0 /\ d < 86400 * 1000000000.
Proof.
  intro H. pose proof (extract_duration_nonneg _ _ H) as Hn.
  destruct (extract_duration_found _ _ H) as [H1 Hb].
  split; [exact Hn|]. split.
  - destruct (first_some_spec _ _ _ H1) as [x [_ Hx]].
    exact (duration_try_minutes _ _ _ Hx).
  - pose proof (Z.div_mod d 86400 ltac:(lia)).
    pose proof (Z.mod_pos_bound d 86400 ltac:(lia)).
    pose proof (Z.div_pos d 86400 Hn ltac:(lia)).
    rewrite Z.abs_eq in Hb by lia. lia.
Qed.

Lemma extract_duration_whole_minutes_witness :
  extract_duration (u "sync 1h30m") = Ok (Some 5400)
  /\ 0 <= 5400 /\ 5400 mod 60 = 0 /\ 5400 < 86400 * 1000000000.
Proof.
  assert (H : extract_duration (u "sync 1h30m") = Ok (Some 5400))
    by (vm_compute; reflexivity).
  split; [exact H|]. exact (extract_duration_whole_minutes _ _ H).
Defined.

(** ** Conversation state and the calendar choice of the creators *)

(** X10: once a conversation has expired it stays expired as time goes on. *)
Theorem is_conversation_expired_mono (t t' : Z) (usr : User) :
  t <= t' -> is_conversation_expired t usr = true -> is_conversation_expired t' usr = true.
Proof.
  unfold is_conversation_expired, is_conversation_expired_t.
  destruct (conversation_updated usr) as [upd|]; [|reflexivity].
  intros Ht H. apply Z.ltb_lt in H. apply Z.ltb_lt. lia.
Qed.

Lemma is_conversation_expired_mono_witness :
  (jun10_10am <= jun10_10am + 5 /\ is_conversation_expired jun10_10am (confirm_user 2000) = true)
  /\ is_conversation_expired (jun10_10am + 5) (confirm_user 2000) = true.
Proof.
  assert (H1 : jun10_10am <= jun10_10am + 5) by lia.
  assert (H2 : is_conversation_expired jun10_10am (confirm_user 2000) = true)
    by (vm_compute; reflexivity).
  split; [split; [exact H1|exact H2]|].
  exact (is_conversation_expired_mono _ _ _ H1 H2).
Defined.


(** ** [process_message] and the conversation handlers *)

Lemma str_eqb_eq a b : str_eqb a b = true -> a = b.
Proof.
  revert b. induction a as [|x a IH]; intros [|y b]; cbn [str_eqb]; try discriminate.
  - reflexivity.
  - rewrite andb_true_iff, N.eqb_eq. intros [-> H]. f_equal. exact (IH _ H).
Qed.

Lemma in_strs_eq x l : in_strs x l = true -> exists y, In y l /\ x = y.
Proof.
  unfold in_strs. rewrite existsb_exists. intros [y [Hy He]].
  exists y. split; [exact Hy|exact (str_eqb_eq _ _ He)].
Qed.

Lemma expired_with_language t usr l :
  is_conversation_expired t (with_language usr l) = is_conversation_expired t usr.
Proof. reflexivity. Qed.

(** [process_message] on a non-empty message: the language is set from the
    message, then the conversation flow runs if a conversation is active,
    then the command processing. *)
Lemma process_message_eq svc m usr :
  m <> [] ->
  process_message svc m usr =
  st_bind (if step_truthy (conversation_step usr)
              && negb (is_conversation_expired (utcnow svc) usr)
           then handle_conversation_flow svc m else st_ret None)
          (fun cr => match cr with
                     | Some r => st_ret r
                     | None => command_processing svc m (py_strip (py_lower m))
                     end)
          (with_language usr (detect_user_language m)).
Proof. intro H. destruct m as [|c r]; [contradiction|]. reflexivity. Qed.

Ltac unfold_st :=
  unfold st_bind, st_get, st_ret, st_lift, st_modify, set_state, clear_state.

Lemma live_conversation svc usr t :
  conversation_updated usr = Some t -> utcnow svc - t <= 1800 ->
  is_conversation_expired (utcnow svc) usr = false.
Proof.
  intros Hu Ht. unfold is_conversation_expired, is_conversation_expired_t.
  rewrite Hu. apply Z.ltb_ge. lia.
Qed.

Lemma no_word_not_yes x : in_strs x no_words = true -> in_strs x yes_words = false.
Proof.
  intro H. apply in_strs_eq in H. destruct H as [y [Hy ->]].
  unfold no_words in Hy. cbn [map In] in Hy.
  repeat destruct Hy as [<-|Hy]; try contradiction; vm_compute; reflexivity.
Qed.

(** X12: in a live confirmation, a "yes" answer creates the stored event
    through [create_event_from_confirmation], returns its reply and clears
    the conversation. *)
Theorem process_message_confirm_yes (svc : Services) (m : str) (usr : User) (pl : Payload)
    (ev : Event) (t : Z) (r : Reply) :
  m <> [] -> in_strs (py_strip (py_lower m)) yes_words = true ->
  conversation_step usr = Some ConfirmEvent -> conversation_state usr = Some pl ->
  pl_parsed_event pl = Some ev -> pl_selected_calendar pl = None ->
  conversation_updated usr = Some t -> utcnow svc - t <= 1800 ->
  create_event_from_confirmation svc (with_language usr (detect_user_language m)) ev = Ok r ->
  process_message svc m usr
  = (Ok r, clear_conversation_state (with_language usr (detect_user_language m))).
Proof.
  intros Hne Hyes Hstep Hst Hev Hsel Hu Ht Hr.
  rewrite process_message_eq by exact Hne.
  rewrite Hstep, (live_conversation _ _ _ Hu Ht). cbn [step_truthy andb negb].
  unfold handle_conversation_flow, handle_event_confirmation. unfold_st.
  rewrite expired_with_language, (live_conversation _ _ _ Hu Ht).
  cbn [with_language conversation_step conversation_state].
  rewrite Hstep, Hst, Hyes, Hev, Hsel, Hr. reflexivity.
Qed.

Lemma process_message_confirm_yes_witness :
  (u "yes" <> [] /\ in_strs (py_strip (py_lower (u "yes"))) yes_words = true
   /\ conversation_step (confirm_user 600) = Some ConfirmEvent
   /\ conversation_state (confirm_user 600) = Some (event_payload c7_event)
   /\ pl_parsed_event (event_payload c7_event) = Some c7_event
   /\ pl_selected_calendar (event_payload c7_event) = None
   /\ conversation_updated (confirm_user 600) = Some (jun10_10am - 600)
   /\ utcnow c7_services - (jun10_10am - 600) <= 1800
   /\ create_event_from_confirmation c7_services
        (with_language (confirm_user 600) (detect_user_language (u "yes"))) c7_event
      = Ok (ServiceReply (u "Event created")))
  /\ process_message c7_services (u "yes") (confirm_user 600)
     = (Ok (ServiceReply (u "Event created")),
        clear_conversation_state
          (with_language (confirm_user 600) (detect_user_language (u "yes")))).
Proof.
  assert (H1 : u "yes" <> []) by discriminate.
  assert (H2 : in_strs (py_strip (py_lower (u "yes"))) yes_words = true)
    by (vm_compute; reflexivity).
  assert (H3 : conversation_step (confirm_user 600) = Some ConfirmEvent) by reflexivity.
  assert (H4 : conversation_state (confirm_user 600) = Some (event_payload c7_event))
    by reflexivity.
  assert (H5 : pl_parsed_event (event_payload c7_event) = Some c7_event) by reflexivity.
  assert (H6 : pl_selected_calendar (event_payload c7_event) = None) by reflexivity.
  assert (H7 : conversation_updated (confirm_user 600) = Some (jun10_10am - 600))
    by reflexivity.
  assert (H8 : utcnow c7_services - (jun10_10am - 600) <= 1800)
    by (vm_compute; discriminate).
  assert (H9 : create_event_from_confirmation c7_services
                 (with_language (confirm_user 600) (detect_user_language (u "yes"))) c7_event
               = Ok (ServiceReply (u "Event created"))) by reflexivity.
  split; [repeat split; assumption|].
  exact (process_message_confirm_yes c7_services (u "yes") (confirm_user 600)
           (event_payload c7_event) c7_event (jun10_10am - 600) _
           H1 H2 H3 H4 H5 H6 H7 H8 H9).
Defined.

(** X13: in a live confirmation, a "no" answer cancels: the reply is the
    cancellation message and the conversation is cleared, with no
    collaborator called. *)
Theorem process_message_confirm_no (svc : Services) (m : str) (usr : User) (pl : Payload)
    (t : Z) :
  m <> [] -> in_strs (py_strip (py_lower m)) no_words = true ->
  conversation_step usr = Some ConfirmEvent -> conversation_state usr = Some pl ->
  conversation_updated usr = Some t -> utcnow svc - t <= 1800 ->
  process_message svc m usr
  = (Ok (ConfirmCancelled (lang_of (detect_user_language m))),
     clear_conversation_state (with_language usr (detect_user_language m))).
Proof.
  intros Hne Hno Hstep Hst Hu Ht.
  rewrite process_message_eq by exact Hne.
  rewrite Hstep, (live_conversation _ _ _ Hu Ht). cbn [step_truthy andb negb].
  unfold handle_conversation_flow, handle_event_confirmation. unfold_st.
  rewrite expired_with_language, (live_conversation _ _ _ Hu Ht).
  cbn [with_language conversation_step conversation_state language].
  rewrite Hstep, Hst, (no_word_not_yes _ Hno), Hno. reflexivity.
Qed.

Lemma process_message_confirm_no_witness :
  (u "No" <> [] /\ in_strs (py_strip (py_lower (u "No"))) no_words = true
   /\ conversation_step (confirm_user 600) = Some ConfirmEvent
   /\ conversation_state (confirm_user 600) = Some (event_payload c7_event)
   /\ conversation_updated (confirm_user 600) = Some (jun10_10am - 600)
   /\ utcnow c7_services - (jun10_10am - 600) <= 1800)
  /\ process_message c7_services (u "No") (confirm_user 600)
     = (Ok (ConfirmCancelled (lang_of (detect_user_language (u "No")))),
        clear_conversation_state
          (with_language (confirm_user 600) (detect_user_language (u "No")))).
Proof.
  assert (H1 : u "No" <> []) by discriminate.
  assert (H2 : in_strs (py_strip (py_lower (u "No"))) no_words = true)
    by (vm_compute; reflexivity).
  assert (H3 : conversation_step (confirm_user 600) = Some ConfirmEvent) by reflexivity.
  assert (H4 : conversation_state (confirm_user 600) = Some (event_payload c7_event))
    by reflexivity.
  assert (H5 : conversation_updated (confirm_user 600) = Some (jun10_10am - 600))
    by reflexivity.
  assert (H6 : utcnow c7_services - (jun10_10am - 600) <= 1800)
    by (vm_compute; discriminate).
  split; [repeat split; assumption|].
  exact (process_message_confirm_no c7_services (u "No") (confirm_user 600)
           (event_payload c7_event) (jun10_10am - 600) H1 H2 H3 H4 H5 H6).
Defined.

Lemma command_processing_cancel svc m ml u2 :
  in_strs ml (map u ["עבור לאנגלית"; "switch to english"]%string) = false ->
  in_strs ml (map u ["עבור לעברית"; "switch to hebrew"]%string) = false ->
  in_strs ml exact_commands = true ->
  in_strs ml (map u ["cancel"; "בטל"]%string) = true ->
  command_processing svc m ml u2 = handle_cancel_command u2.
Proof.
  intros H1 H2 H3 H4. unfold command_processing, st_bind, st_get.
  rewrite H1, H2, H3, H4. reflexivity.
Qed.

Lemma handle_cancel_command_ends u2 :
  exists r, fst (handle_cancel_command u2) = Ok r
            /\ step_truthy (conversation_step (snd (handle_cancel_command u2))) = false.
Proof.
  unfold handle_cancel_command. unfold_st.
  destruct (step_truthy (conversation_step u2)) eqn:E; eexists; split; try reflexivity.
  exact E.
Qed.

Lemma cancel_ends_conversation svc m usr :
  m <> [] -> conversation_state usr <> None ->
  should_try_nlp m = false -> py_int_signed (py_strip m) = None ->
  in_strs (py_strip (py_lower m)) no_words = true ->
  in_strs (py_strip (py_lower m)) (map u ["cancel"; "back"; "בטל"; "חזור"]%string) = true ->
  in_strs (py_strip (py_lower m)) (map u ["עבור לאנגלית"; "switch to english"]%string) = false ->
  in_strs (py_strip (py_lower m)) (map u ["עבור לעברית"; "switch to hebrew"]%string) = false ->
  in_strs (py_strip (py_lower m)) exact_commands = true ->
  in_strs (py_strip (py_lower m)) (map u ["cancel"; "בטל"]%string) = true ->
  exists r, fst (process_message svc m usr) = Ok r
            /\ step_truthy (conversation_step (snd (process_message svc m usr))) = false.
Proof.
  intros Hne Hst Hnlp Hint Hno Hcl Hen Hhe Hex Hcc.
  assert (Hcp : forall u2, command_processing svc m (py_strip (py_lower m)) u2
                           = handle_cancel_command u2)
    by (intro; apply command_processing_cancel; assumption).
  rewrite process_message_eq by exact Hne.
  destruct (step_truthy (conversation_step usr)
            && negb (is_conversation_expired (utcnow svc) usr)) eqn:Ea.
  - apply andb_true_iff in Ea. destruct Ea as [Es Ee]. apply negb_true_iff in Ee.
    unfold handle_conversation_flow, handle_event_confirmation, handle_calendar_selection,
      handle_event_editing.
    unfold_st. rewrite expired_with_language, Ee.
    cbn [with_language conversation_step conversation_state]. cbv zeta.
    destruct (conversation_step usr) as [[| | |s]|]; try discriminate.
    + destruct (conversation_state usr) as [pl|]; [|contradiction].
      rewrite (no_word_not_yes _ Hno), Hno. eexists; split; reflexivity.
    + rewrite Hnlp, Hint, Hcl. eexists; split; reflexivity.
    + eexists; split; reflexivity.
    + rewrite Hcp. apply handle_cancel_command_ends.
  - unfold st_bind, st_ret. rewrite Hcp. apply handle_cancel_command_ends.
Qed.

(** X14: "cancel" (or its Hebrew form) always ends the conversation: for a
    user whose conversation data is stored, the message gets a reply with
    no exception, and afterwards no conversation step is set. *)
Theorem process_message_cancel_ends_conversation (svc : Services) (m : str) (usr : User) :
  In m (map u ["cancel"; "בטל"]%string) -> conversation_state usr <> None ->
  exists r, fst (process_message svc m usr) = Ok r
            /\ step_truthy (conversation_step (snd (process_message svc m usr))) = false.
Proof.
  intros Hm Hs. cbn [map In] in Hm.
  destruct Hm as [<-|[<-|[]]];
    (apply cancel_ends_conversation; [discriminate|exact Hs|..]);
    vm_compute; reflexivity.
Qed.

Lemma process_message_cancel_ends_conversation_witness :
  (In (u "cancel") (map u ["cancel"; "בטל"]%string)
   /\ conversation_state (confirm_user 600) <> None)
  /\ exists r, fst (process_message c7_services (u "cancel") (confirm_user 600)) = Ok r
     /\ step_truthy (conversation_step
                      (snd (process_message c7_services (u "cancel") (confirm_user 600))))
        = false.
Proof.
  assert (H1 : In (u "cancel") (map u ["cancel"; "בטל"]%string)) by (left; reflexivity).
  assert (H2 : conversation_state (confirm_user 600) <> None) by discriminate.
  split; [split; assumption|].
  exact (process_message_cancel_ends_conversation c7_services _ _ H1 H2).
Defined.







(** X16: without an active conversation, a message that is neither a
    language switch nor an exact command, from a user who is not connected
    or that [should_try_nlp] rejects, gets "not_connected" (an event-like
    message from a user who is not connected) or "unknown_command" in the
    detected language; nothing but the language of the user changes. *)
Theorem process_message_not_a_command (svc : Services) (m : str) (usr : User) :
  m <> [] ->
  step_truthy (conversation_step usr) = false
  \/ is_conversation_expired (utcnow svc) usr = true ->
  in_strs (py_strip (py_lower m)) (map u ["עבור לאנגלית"; "switch to english"]%string) = false ->
  in_strs (py_strip (py_lower m)) (map u ["עבור לעברית"; "switch to hebrew"]%string) = false ->
  in_strs (py_strip (py_lower m)) exact_commands = false ->
  should_try_nlp m = false \/ google_access_token usr = false ->
  process_message svc m usr
  = (Ok (Template (detect_user_language m)
           (if should_try_nlp m then "not_connected" else "unknown_command")),
     with_language usr (detect_user_language m)).
Proof.
  intros Hne Hconv H1 H2 H3 Hn.
  rewrite process_message_eq by exact Hne.
  replace (step_truthy (conversation_step usr)
           && negb (is_conversation_expired (utcnow svc) usr)) with false
    by (destruct Hconv as [E|E]; rewrite E; [reflexivity|cbn [negb]; symmetry; apply andb_false_r]).
  unfold command_processing. unfold_st. rewrite H1, H2, H3.
  cbn [with_language google_access_token language].
  destruct Hn as [E|E]; rewrite E.
  - destruct (negb (google_access_token usr)); reflexivity.
  - cbn [negb]. destruct (should_try_nlp m); reflexivity.
Qed.

Lemma process_message_not_a_command_witness :
  (u "what is on today" <> []
   /\ (step_truthy (conversation_step sample_user) = false
       \/ is_conversation_expired (utcnow c7_services) sample_user = true)
   /\ in_strs (py_strip (py_lower (u "what is on today")))
        (map u ["עבור לאנגלית"; "switch to english"]%string) = false
   /\ in_strs (py_strip (py_lower (u "what is on today")))
        (map u ["עבור לעברית"; "switch to hebrew"]%string) = false
   /\ in_strs (py_strip (py_lower (u "what is on today"))) exact_commands = false
   /\ (should_try_nlp (u "what is on today") = false
       \/ google_access_token sample_user = false))
  /\ process_message c7_services (u "what is on today") sample_user
     = (Ok (Template (detect_user_language (u "what is on today"))
              (if should_try_nlp (u "what is on today") then "not_connected"
               else "unknown_command")),
        with_language sample_user (detect_user_language (u "what is on today"))).
Proof.
  assert (H1 : u "what is on today" <> []) by discriminate.
  assert (H2 : step_truthy (conversation_step sample_user) = false
               \/ is_conversation_expired (utcnow c7_services) sample_user = true)
    by (left; reflexivity).
  assert (H3 : in_strs (py_strip (py_lower (u "what is on today")))
                 (map u ["עבור לאנגלית"; "switch to english"]%string) = false)
    by (vm_compute; reflexivity).
  assert (H4 : in_strs (py_strip (py_lower (u "what is on today")))
                 (map u ["עבור לעברית"; "switch to hebrew"]%string) = false)
    by (vm_compute; reflexivity).
  assert (H5 : in_strs (py_strip (py_lower (u "what is on today"))) exact_commands = false)
    by (vm_compute; reflexivity).
  assert (H6 : should_try_nlp (u "what is on today") = false
               \/ google_access_token sample_user = false)
    by (left; vm_compute; reflexivity).
  split; [repeat split; assumption|].
  exact (process_message_not_a_command c7_services _ sample_user H1 H2 H3 H4 H5 H6).
Defined.

(** X17: without an active conversation, "switch to english" or "switch to
    hebrew" (or their Hebrew forms) sets the user's language to the one
    asked for, overriding the language detected from the message, and
    confirms in that language. *)
Theorem process_message_switch_language (svc : Services) (m : str) (usr : User) :
  m <> [] ->
  step_truthy (conversation_step usr) = false
  \/ is_conversation_expired (utcnow svc) usr = true ->
  (in_strs (py_strip (py_lower m)) (map u ["עבור לאנגלית"; "switch to english"]%string) = true ->
   process_message svc m usr = (Ok (Template En "language_switched"), with_language usr En))
  /\ (in_strs (py_strip (py_lower m)) (map u ["עבור לאנגלית"; "switch to english"]%string)
      = false ->
      in_strs (py_strip (py_lower m)) (map u ["עבור לעברית"; "switch to hebrew"]%string)
      = true ->
      process_message svc m usr = (Ok (Template He "language_switched"), with_language usr He)).
Proof.
  intros Hne Hconv.
  rewrite process_message_eq by exact Hne.
  replace (step_truthy (conversation_step usr)
           && negb (is_conversation_expired (utcnow svc) usr)) with false
    by (destruct Hconv as [E|E]; rewrite E; [reflexivity|cbn [negb]; symmetry; apply andb_false_r]).
  unfold command_processing. unfold_st.
  split; [intro E; rewrite E; reflexivity|intros E1 E2; rewrite E1, E2; reflexivity].
Qed.

Lemma process_message_switch_language_witness :
  (u "Switch to Hebrew" <> []
   /\ (step_truthy (conversation_step sample_user) = false
       \/ is_conversation_expired (utcnow c7_services) sample_user = true))
  /\ (in_strs (py_strip (py_lower (u "Switch to Hebrew")))
        (map u ["עבור לאנגלית"; "switch to english"]%string) = true ->
      process_message c7_services (u "Switch to Hebrew") sample_user
      = (Ok (Template En "language_switched"), with_language sample_user En))
  /\ (in_strs (py_strip (py_lower (u "Switch to Hebrew")))
        (map u ["עבור לאנגלית"; "switch to english"]%string) = false ->
      in_strs (py_strip (py_lower (u "Switch to Hebrew")))
        (map u ["עבור לעברית"; "switch to hebrew"]%string) = true ->
      process_message c7_services (u "Switch to Hebrew") sample_user
      = (Ok (Template He "language_switched"), with_language sample_user He)).
Proof.
  assert (H1 : u "Switch to Hebrew" <> []) by discriminate.
  assert (H2 : step_truthy (conversation_step sample_user) = false
               \/ is_conversation_expired (utcnow c7_services) sample_user = true)
    by (left; reflexivity).
  split; [split; assumption|].
  exact (process_message_switch_language c7_services _ sample_user H1 H2).
Defined.

(** ** Exceptions of the parser *)










(** ** The edit step and the NLP path *)

Lemma edit_word_not_yes_no x :
  in_strs x edit_words = true -> in_strs x yes_words = false /\ in_strs x no_words = false.
Proof.
  intro H. apply in_strs_eq in H. destruct H as [y [Hy ->]].
  unfold edit_words in Hy. cbn [map In] in Hy.
  repeat destruct Hy as [<-|Hy]; try contradiction; split; vm_compute; reflexivity.
Qed.

(** X19: in a live confirmation, an "edit" answer moves the conversation to
    the edit step with the same stored event and a fresh timestamp; the
    next message, within 30 minutes, gets the "editing is coming soon"
    reply and ends the conversation. *)
Theorem process_message_edit_flow (svc svc' : Services) (m1 m2 : str) (usr : User)
    (pl : Payload) (t : Z) :
  m1 <> [] -> m2 <> [] -> in_strs (py_strip (py_lower m1)) edit_words = true ->
  conversation_step usr = Some ConfirmEvent -> conversation_state usr = Some pl ->
  conversation_updated usr = Some t -> utcnow svc - t <= 1800 ->
  utcnow svc' - utcnow svc <= 1800 ->
  process_message svc m1 usr
  = (Ok (EditPrompt (lang_of (detect_user_language m1))),
     set_conversation_state (utcnow svc) (with_language usr (detect_user_language m1))
       EditEvent (Some pl))
  /\ process_message svc' m2
       (set_conversation_state (utcnow svc) (with_language usr (detect_user_language m1))
          EditEvent (Some pl))
     = (Ok (EditingSoon (lang_of (detect_user_language m2))),
        clear_conversation_state
          (with_language
             (set_conversation_state (utcnow svc) (with_language usr (detect_user_language m1))
                EditEvent (Some pl))
             (detect_user_language m2))).
Proof.
  intros Hne1 Hne2 Hed Hstep Hst Hu Ht Ht'.
  destruct (edit_word_not_yes_no _ Hed) as [Hy Hn].
  split.
  - rewrite process_message_eq by exact Hne1.
    rewrite Hstep, (live_conversation _ _ _ Hu Ht). cbn [step_truthy andb negb].
    unfold handle_conversation_flow, handle_event_confirmation. unfold_st.
    rewrite expired_with_language, (live_conversation _ _ _ Hu Ht).
    cbn [with_language conversation_step conversation_state language].
    rewrite Hstep, Hst, Hy, Hn, Hed. reflexivity.
  - set (u1 := set_conversation_state (utcnow svc) (with_language usr (detect_user_language m1))
                 EditEvent (Some pl)).
    assert (He : is_conversation_expired (utcnow svc') u1 = false)
      by (apply (live_conversation _ _ (utcnow svc)); [reflexivity|exact Ht']).
    rewrite process_message_eq by exact Hne2.
    replace (conversation_step u1) with (Some EditEvent) by reflexivity.
    rewrite He. cbn [step_truthy andb negb].
    unfold handle_conversation_flow, handle_event_editing. unfold_st.
    rewrite expired_with_language, He. reflexivity.
Qed.

Lemma process_message_edit_flow_witness :
  (u "edit" <> [] /\ u "ok thanks" <> []
   /\ in_strs (py_strip (py_lower (u "edit"))) edit_words = true
   /\ conversation_step (confirm_user 600) = Some ConfirmEvent
   /\ conversation_state (confirm_user 600) = Some (event_payload c7_event)
   /\ conversation_updated (confirm_user 600) = Some (jun10_10am - 600)
   /\ utcnow c7_services - (jun10_10am - 600) <= 1800
   /\ utcnow c7_services - utcnow c7_services <= 1800)
  /\ process_message c7_services (u "edit") (confirm_user 600)
     = (Ok (EditPrompt (lang_of (detect_user_language (u "edit")))),
        set_conversation_state (utcnow c7_services)
          (with_language (confirm_user 600) (detect_user_language (u "edit")))
          EditEvent (Some (event_payload c7_event)))
  /\ process_message c7_services (u "ok thanks")
       (set_conversation_state (utcnow c7_services)
          (with_language (confirm_user 600) (detect_user_language (u "edit")))
          EditEvent (Some (event_payload c7_event)))
     = (Ok (EditingSoon (lang_of (detect_user_language (u "ok thanks")))),
        clear_conversation_state
          (with_language
             (set_conversation_state (utcnow c7_services)
                (with_language (confirm_user 600) (detect_user_language (u "edit")))
                EditEvent (Some (event_payload c7_event)))
             (detect_user_language (u "ok thanks")))).
Proof.
  assert (H1 : u "edit" <> []) by discriminate.
  assert (H2 : u "ok thanks" <> []) by discriminate.
  assert (H3 : in_strs (py_strip (py_lower (u "edit"))) edit_words = true)
    by (vm_compute; reflexivity).
  assert (H4 : conversation_step (confirm_user 600) = Some ConfirmEvent) by reflexivity.
  assert (H5 : conversation_state (confirm_user 600) = Some (event_payload c7_event))
    by reflexivity.
  assert (H6 : conversation_updated (confirm_user 600) = Some (jun10_10am - 600))
    by reflexivity.
  assert (H7 : utcnow c7_services - (jun10_10am - 600) <= 1800)
    by (vm_compute; discriminate).
  assert (H8 : utcnow c7_services - utcnow c7_services <= 1800) by lia.
  split; [repeat split; assumption|].
  exact (process_message_edit_flow c7_services c7_services (u "edit") (u "ok thanks")
           (confirm_user 600) (event_payload c7_event) (jun10_10am - 600)
           H1 H2 H3 H4 H5 H6 H7 H8).
Defined.

(** X20: without an active conversation, a connected user's event-like
    message (one [should_try_nlp] accepts, and no command) from which the
    parser extracts no event gets the "nlp_failed" reply in the detected
    language; only the language of the user changes. *)
Theorem process_message_nlp_failed (svc : Services) (m : str) (usr : User) :
  m <> [] -> google_access_token usr = true ->
  step_truthy (conversation_step usr) = false
  \/ is_conversation_expired (utcnow svc) usr = true ->
  in_strs (py_strip (py_lower m)) (map u ["עבור לאנגלית"; "switch to english"]%string) = false ->
  in_strs (py_strip (py_lower m)) (map u ["עבור לעברית"; "switch to hebrew"]%string) = false ->
  in_strs (py_strip (py_lower m)) exact_commands = false ->
  should_try_nlp m = true ->
  parse_event (svc_env svc (timezone usr)) m = Ok None ->
  process_message svc m usr
  = (Ok (Template (detect_user_language m) "nlp_failed"),
     with_language usr (detect_user_language m)).
Proof.
  intros Hne Htok Hconv H1 H2 H3 Hnlp Hp.
  rewrite process_message_eq by exact Hne.
  replace (step_truthy (conversation_step usr)
           && negb (is_conversation_expired (utcnow svc) usr)) with false
    by (destruct Hconv as [E|E]; rewrite E;
        [reflexivity|cbn [negb]; symmetry; apply andb_false_r]).
  unfold command_processing, try_nlp_event_creation, try_nlp_body. unfold_st.
  rewrite H1, H2, H3. cbn [with_language google_access_token language timezone].
  rewrite Htok, Hnlp. cbn [negb with_language google_access_token timezone].
  rewrite Htok, Hp. reflexivity.
Qed.

Lemma process_message_nlp_failed_witness :
  (u "meeting with John soon" <> [] /\ google_access_token sample_user = true
   /\ (step_truthy (conversation_step sample_user) = false
       \/ is_conversation_expired (utcnow c7_services) sample_user = true)
   /\ in_strs (py_strip (py_lower (u "meeting with John soon")))
        (map u ["עבור לאנגלית"; "switch to english"]%string) = false
   /\ in_strs (py_strip (py_lower (u "meeting with John soon")))
        (map u ["עבור לעברית"; "switch to hebrew"]%string) = false
   /\ in_strs (py_strip (py_lower (u "meeting with John soon"))) exact_commands = false
   /\ should_try_nlp (u "meeting with John soon") = true
   /\ parse_event (svc_env c7_services (timezone sample_user)) (u "meeting with John soon")
      = Ok None)
  /\ process_message c7_services (u "meeting with John soon") sample_user
     = (Ok (Template (detect_user_language (u "meeting with John soon")) "nlp_failed"),
        with_language sample_user (detect_user_language (u "meeting with John soon"))).
Proof.
  assert (H1 : u "meeting with John soon" <> []) by discriminate.
  assert (H2 : google_access_token sample_user = true) by reflexivity.
  assert (H3 : step_truthy (conversation_step sample_user) = false
               \/ is_conversation_expired (utcnow c7_services) sample_user = true)
    by (left; reflexivity).
  assert (H4 : in_strs (py_strip (py_lower (u "meeting with John soon")))
                 (map u ["עבור לאנגלית"; "switch to english"]%string) = false)
    by (vm_compute; reflexivity).
  assert (H5 : in_strs (py_strip (py_lower (u "meeting with John soon")))
                 (map u ["עבור לעברית"; "switch to hebrew"]%string) = false)
    by (vm_compute; reflexivity).
  assert (H6 : in_strs (py_strip (py_lower (u "meeting with John soon"))) exact_commands
               = false) by (vm_compute; reflexivity).
  assert (H7 : should_try_nlp (u "meeting with John soon") = true)
    by (vm_compute; reflexivity).
  assert (H8 : parse_event (svc_env c7_services (timezone sample_user))
                 (u "meeting with John soon") = Ok None) by (vm_compute; reflexivity).
  split; [repeat split; assumption|].
  exact (process_message_nlp_failed c7_services _ sample_user H1 H2 H3 H4 H5 H6 H7 H8).
Defined.

(** ** The language of the user *)

Lemma kl_ret {A} (a : A) : keeps_language (st_ret a).
Proof. intro usr. reflexivity. Qed.
Lemma kl_lift {A} (r : Res A) : keeps_language (st_lift r).
Proof. intro usr. reflexivity. Qed.
Lemma kl_get : keeps_language st_get.
Proof. intro usr. reflexivity. Qed.
Lemma kl_set_state svc step data : keeps_language (set_state svc step data).
Proof. intro usr. reflexivity. Qed.
Lemma kl_clear : keeps_language clear_state.
Proof. intro usr. reflexivity. Qed.

Lemma kl_bind {A B} (m : St A) (k : A -> St B) :
  keeps_language m -> (forall a, keeps_language (k a)) -> keeps_language (st_bind m k).
Proof.
  intros Hm Hk usr. unfold st_bind. specialize (Hm usr).
  destruct (m usr) as [[a|e] u'] eqn:E; cbn [snd] in *.
  - rewrite Hk. exact Hm.
  - exact Hm.
Qed.

Ltac kl :=
  repeat (cbv zeta;
          match goal with
          | |- keeps_language (st_bind _ _) => apply kl_bind; [|intro]
          | |- keeps_language (st_ret _) => apply kl_ret
          | |- keeps_language (st_lift _) => apply kl_lift
          | |- keeps_language st_get => apply kl_get
          | |- keeps_language (set_state _ _ _) => apply kl_set_state
          | |- keeps_language clear_state => apply kl_clear
          | |- keeps_language (match ?x with _ => _ end) => destruct x
          | |- keeps_language (if ?x then _ else _) => destruct x
          end).

Lemma kl_try_nlp svc msg : keeps_language (try_nlp_event_creation svc msg).
Proof.
  assert (Hb : keeps_language (try_nlp_body svc msg)) by (unfold try_nlp_body; kl).
  intro usr. unfold try_nlp_event_creation.
  destruct (negb (google_access_token usr)); [reflexivity|].
  specialize (Hb usr). destruct (try_nlp_body svc msg usr) as [[a|e] u'];
    exact Hb.
Qed.

Lemma kl_conversation_flow svc msg : keeps_language (handle_conversation_flow svc msg).
Proof.
  unfold handle_conversation_flow, handle_event_confirmation, handle_calendar_selection,
    handle_event_editing.
  kl; apply kl_try_nlp.
Qed.

Lemma kl_command_processing svc msg ml :
  in_strs ml (map u ["עבור לאנגלית"; "switch to english"]%string) = false ->
  in_strs ml (map u ["עבור לעברית"; "switch to hebrew"]%string) = false ->
  keeps_language (command_processing svc msg ml).
Proof.
  intros H1 H2. unfold command_processing. rewrite H1, H2.
  unfold handle_cancel_command. kl; apply kl_try_nlp.
Qed.

(** X21: after any non-empty message other than a language switch, the
    user's language is the one detected from the message (Hebrew if it
    has a character of the Hebrew block, else English), whichever handler
    runs and even when one of them raises. *)
Theorem process_message_language (svc : Services) (m : str) (usr : User) :
  m <> [] ->
  in_strs (py_strip (py_lower m)) (map u ["עבור לאנגלית"; "switch to english"]%string) = false ->
  in_strs (py_strip (py_lower m)) (map u ["עבור לעברית"; "switch to hebrew"]%string) = false ->
  language (snd (process_message svc m usr)) = detect_user_language m.
Proof.
  intros Hne H1 H2. rewrite process_message_eq by exact Hne.
  rewrite kl_bind.
  - reflexivity.
  - destruct (_ && _); [apply kl_conversation_flow|apply kl_ret].
  - intros [r|]; [apply kl_ret|apply kl_command_processing; assumption].
Qed.

Lemma process_message_language_witness :
  (u "פגישה מחר" <> []
   /\ in_strs (py_strip (py_lower (u "פגישה מחר")))
        (map u ["עבור לאנגלית"; "switch to english"]%string) = false
   /\ in_strs (py_strip (py_lower (u "פגישה מחר")))
        (map u ["עבור לעברית"; "switch to hebrew"]%string) = false)
  /\ language (snd (process_message c7_services (u "פגישה מחר") sample_user))
     = detect_user_language (u "פגישה מחר").
Proof.
  assert (H1 : u "פגישה מחר" <> []) by discriminate.
  assert (H2 : in_strs (py_strip (py_lower (u "פגישה מחר")))
                 (map u ["עבור לאנגלית"; "switch to english"]%string) = false)
    by (vm_compute; reflexivity).
  assert (H3 : in_strs (py_strip (py_lower (u "פגישה מחר")))
                 (map u ["עבור לעברית"; "switch to hebrew"]%string) = false)
    by (vm_compute; reflexivity).
  split; [repeat split; assumption|].
  exact (process_message_language c7_services _ sample_user H1 H2 H3).
Defined.

(** ** Times and dates *)

(** X22: a time read from a Hebrew time expression is a valid clock time:
    hour 0 to 23, minute 0 to 59 (out-of-range matches are skipped). *)
Theorem hebrew_time_valid (text : str) (h m : Z) :
  hebrew_time text = Some (h, m) -> 0 <= h <= 23 /\ 0 <= m <= 59.
Proof. apply hebrew_time_range. Qed.

Lemma hebrew_time_valid_witness :
  hebrew_time (u "פגישה בשעה 14:30") = Some (14, 30) /\ 0 <= 14 <= 23 /\ 0 <= 30 <= 59.
Proof.
  assert (H : hebrew_time (u "פגישה בשעה 14:30") = Some (14, 30))
    by (vm_compute; reflexivity).
  split; [exact H|]. exact (hebrew_time_valid _ _ _ H).
Defined.

(** X23: an explicit end time extracted with a start time lies on the same
    day as the start. *)
Theorem explicit_end_same_day (env : Env) (text : str) (di : DTInfo) (e : Z) :
  extract_datetime_enhanced env text = Ok (Some di) -> dt_end di = Some e ->
  day_start e = day_start (dt_start di).
Proof.
  intros H He. destruct (enhanced_end _ _ _ _ H He) as [_ Hd].
  destruct (extract_datetime_end _ _ _ _ Hd He)
    as (tp & eh & em & d & _ & _ & _ & _ & Hs & Hee).
  apply dt_replace_ok in Hs. apply dt_replace_ok in Hee.
  destruct Hs as (Hh & Hm & ->). destruct Hee as (Heh & Hem & ->).
  rewrite <- !Z.add_assoc, !day_start_shift by lia. reflexivity.
Qed.

Lemma explicit_end_same_day_witness :
  (extract_datetime_enhanced (sample_env jun10_10am) (u "sync tomorrow 2-3pm")
   = Ok (Some {| dt_start := 1718114400; dt_end := Some 1718118000 |})
   /\ dt_end {| dt_start := 1718114400; dt_end := Some 1718118000 |} = Some 1718118000)
  /\ day_start 1718118000
     = day_start (dt_start {| dt_start := 1718114400; dt_end := Some 1718118000 |}).
Proof.
  assert (H1 : extract_datetime_enhanced (sample_env jun10_10am) (u "sync tomorrow 2-3pm")
               = Ok (Some {| dt_start := 1718114400; dt_end := Some 1718118000 |}))
    by (vm_compute; reflexivity).
  assert (H2 : dt_end {| dt_start := 1718114400; dt_end := Some 1718118000 |}
               = Some 1718118000) by reflexivity.
  split; [split; assumption|].
  exact (explicit_end_same_day _ _ _ _ H1 H2).
Defined.

(** X24: a duration beyond the range of [timedelta] makes [parse_event]
    raise [OverflowError] whatever the title and the date: the duration is
    extracted before the checks that return [None]. *)
Theorem parse_event_duration_overflow (env : Env) (text0 : str) (o : option DTInfo) :
  nlp_loaded env = true ->
  extract_datetime_enhanced env (preprocess_text text0) = Ok o ->
  extract_duration (preprocess_text text0) = Raise OverflowError ->
  parse_event env text0 = Raise OverflowError.
Proof.
  intros Hn Hd Hdur. unfold parse_event. rewrite Hn. cbn [negb]. cbv zeta.
  rewrite Hd. cbn [res_bind]. rewrite Hdur. reflexivity.
Qed.

Lemma parse_event_duration_overflow_witness :
  (nlp_loaded (sample_env jun10_10am) = true
   /\ extract_datetime_enhanced (sample_env jun10_10am)
        (preprocess_text (u "sync for 99999999999 hours")) = Ok None
   /\ extract_duration (preprocess_text (u "sync for 99999999999 hours"))
      = Raise OverflowError)
  /\ parse_event (sample_env jun10_10am) (u "sync for 99999999999 hours")
     = Raise OverflowError.
Proof.
  assert (H1 : nlp_loaded (sample_env jun10_10am) = true) by reflexivity.
  assert (H2 : extract_datetime_enhanced (sample_env jun10_10am)
                 (preprocess_text (u "sync for 99999999999 hours")) = Ok None)
    by (vm_compute; reflexivity).
  assert (H3 : extract_duration (preprocess_text (u "sync for 99999999999 hours"))
               = Raise OverflowError) by (vm_compute; reflexivity).
  split; [split; [exact H1 | split; [exact H2 | exact H3]] |].
  exact (parse_event_duration_overflow _ _ _ H1 H2 H3).
Defined.
